(** * SnapPlanner (prpy/planning/snap.py): a shallow embedding

    SnapPlanner connects the robot's current configuration to a goal by the
    straight line in joint space and collision checks that line.  All the
    geometry lives in the OpenRAVE engine; snap.py orchestrates calls to it.
    The embedding keeps that shape: the engine is a record of oracles, the
    mutable world (robot configuration, collision-checker options) is
    threaded through a state-and-exception monad, and every call into the
    engine leaves an event in a chronological log so that orderings can be
    stated. *)

From Stdlib Require Import List Bool String QArith Qabs Lia.
Import ListNotations.

(** ** Data *)

(** A configuration: one value per active DOF.  Joint values are floats in
    the source; they are read here as exact rationals. *)
Definition Config := list Q.

(** An end-effector pose (a homogeneous transform), row by row. It is only
    ever handed to the IK solver. *)
Definition Pose := list (list Q).

(** openravepy.CollisionOptions is a bit mask; ActiveDOFs is bit 4. *)
Definition CollisionOptions := nat.
Definition ActiveDOFs : CollisionOptions := 16%nat.

(** openravepy.IkFilterOptions, the two members snap.py names. *)
Inductive IkFilterOptions := CheckEnvCollisions | IgnoreSelfCollisions.

(** openravepy.CollisionReport: which two bodies collided. *)
Record CollisionReport := { body1 : string; body2 : string }.

(** The exception classes that reach the caller.  [kind] is the class that
    was raised, [deterministic] the keyword argument of PlanningError, which
    defaults to None. *)
Inductive ErrorKind :=
| PlanningError (message : string)
| JointLimitError
| CollisionPlanningError (report : CollisionReport)
| SelfCollisionPlanningError (report : CollisionReport)
| OtherException (message : string).

Record Exn := { kind : ErrorKind; deterministic : option bool }.

(** prpy.planning.base.Tags, the three members snap.py names. *)
Inductive Tags := SMOOTH | DETERMINISTIC_TRAJECTORY | DETERMINISTIC_ENDPOINT.

Definition Tags_eqb (a b : Tags) : bool :=
  match a, b with
  | SMOOTH, SMOOTH
  | DETERMINISTIC_TRAJECTORY, DETERMINISTIC_TRAJECTORY
  | DETERMINISTIC_ENDPOINT, DETERMINISTIC_ENDPOINT => true
  | _, _ => false
  end.

(** A trajectory: its waypoints in order and the tag dictionary kept in its
    description.  The configuration specification is the robot's active one
    throughout, so a waypoint is the configuration it was filled from. *)
Record Trajectory := { waypoints : list Config; tags : list (Tags * bool) }.

(** ** The world and its log *)

Inductive Event :=
| EvFindIKSolution (filter : IkFilterOptions)
| EvFindIKSolutions (filter : IkFilterOptions)
| EvCheckJointLimits (q : Config)
| EvInsert (index : nat) (waypoint : Config)
| EvSetCollisionOptions (options : CollisionOptions)
| EvSetActiveDOFValues (q : Config)
| EvCheckCollision (options : CollisionOptions) (q : Config)
| EvCheckSelfCollision (options : CollisionOptions) (q : Config)
| EvVerifyCollisionFree (options : CollisionOptions) (q : Config)
| EvSetTrajectoryTags.

(** The mutable part of the environment the planner runs in: the robot's
    active DOF values, the options of the environment's collision checker,
    and the log of engine calls made so far (oldest first). *)
Record World := {
  dof_values : Config;
  collision_options : CollisionOptions;
  log : list Event
}.

(** The engine: what the environment and robot answer.  A collision query
    depends on the checker's options and on where the robot stands;
    [Some report] is a True return with the report filled in. *)
Record Engine := {
  FindIKSolution :
    Config -> CollisionOptions -> Pose -> IkFilterOptions -> option Config;
  FindIKSolutions :
    Config -> CollisionOptions -> Pose -> IkFilterOptions -> list Config;
  CheckCollision : CollisionOptions -> Config -> option CollisionReport;
  CheckSelfCollision : CollisionOptions -> Config -> option CollisionReport;
  (** the robot's joint position limits, as a test on a configuration *)
  within_joint_limits : Config -> bool;
  (** the sample points (time, configuration) that
      prpy.util.GetLinearCollisionCheckPts yields along a trajectory of two
      or more waypoints, in Van der Corput order *)
  line_samples : list Config -> list (Q * Config)
}.

(** A robot collision checker, already bound to the robot: the answer of
    VerifyCollisionFree() under the current checker options at the robot's
    current configuration, [Some e] when it raises [e]. *)
Record RobotCollisionChecker := {
  VerifyCollisionFree : CollisionOptions -> Config -> option Exn
}.

(** SnapPlanner: __init__ stores the checker class it was given. *)
Record SnapPlanner := { robot_collision_checker : RobotCollisionChecker }.

(** ** State and exceptions *)

Inductive result (A : Type) :=
| Return (a : A)
| Raise (e : Exn).
Arguments Return {A} a.
Arguments Raise {A} e.

(** A computation runs in a world and leaves a world behind, also when it
    raises: what Python mutated before the raise stays mutated. *)
Definition M (A : Type) := World -> result A * World.

Definition ret {A} (a : A) : M A := fun w => (Return a, w).

Definition raise {A} (e : Exn) : M A := fun w => (Raise e, w).

Definition bind {A B} (m : M A) (k : A -> M B) : M B :=
  fun w =>
    match m w with
    | (Return a, w') => k a w'
    | (Raise e, w') => (Raise e, w')
    end.

Declare Scope snap_scope.
Delimit Scope snap_scope with snap.
Notation "x <- m ;; k" := (bind m (fun x => k))
  (at level 61, m at next level, right associativity) : snap_scope.
Notation "m ;; k" := (bind m (fun _ => k))
  (at level 61, right associativity) : snap_scope.
Open Scope snap_scope.

Definition emit (e : Event) : M unit :=
  fun w => (Return tt, {| dof_values := dof_values w;
                          collision_options := collision_options w;
                          log := log w ++ [e] |}).

Definition GetActiveDOFValues : M Config :=
  fun w => (Return (dof_values w), w).

Definition SetActiveDOFValues (q : Config) : M unit :=
  fun w => (Return tt, {| dof_values := q;
                          collision_options := collision_options w;
                          log := log w ++ [EvSetActiveDOFValues q] |}).

Definition SetCollisionOptions (o : CollisionOptions) : M unit :=
  fun w => (Return tt, {| dof_values := dof_values w;
                          collision_options := o;
                          log := log w ++ [EvSetCollisionOptions o] |}).

(** `with CollisionOptionsStateSaver(checker, options): body`.  __enter__
    remembers the old options and sets the new ones; __exit__ puts the old
    ones back, whether [body] returned or raised, and the exception goes
    on. *)
Definition CollisionOptionsStateSaver {A}
    (options : CollisionOptions) (body : M A) : M A :=
  fun w =>
    let oldoptions := collision_options w in
    match SetCollisionOptions options w with
    | (_, w1) =>
        match body w1 with
        | (r, w2) => (r, snd (SetCollisionOptions oldoptions w2))
        end
    end.

(** ** Collaborators that snap.py imports *)

(** numpy.allclose(a, b) with its default tolerances: every component
    satisfies |a - b| <= atol + rtol * |b|.  Two configurations of one robot
    have the same length; arrays of different lengths are answered false. *)
Definition rtol : Q := 1 # 100000.
Definition atol : Q := 1 # 100000000.

Definition isclose (a b : Q) : bool :=
  Qle_bool (Qabs (a - b)) (atol + rtol * Qabs b).

Fixpoint allclose (a b : Config) : bool :=
  match a, b with
  | [], [] => true
  | x :: a', y :: b' => isclose x y && allclose a' b'
  | _, _ => false
  end.

(** prpy.planning.exceptions: XPlanningError.FromReport(report,
    deterministic=...) builds the error of class X around the report. *)
Definition FromReport (cls : CollisionReport -> ErrorKind)
    (report : CollisionReport) (det : option bool) : Exn :=
  {| kind := cls report; deterministic := det |}.

(** openravepy.RaveCreateTrajectory(env, ''): an empty trajectory. *)
Definition RaveCreateTrajectory : Trajectory :=
  {| waypoints := []; tags := [] |}.

(** traj.Insert(index, waypoint): the waypoint goes in before [index]. *)
Definition Insert (index : nat) (waypoint : Config) (traj : Trajectory)
  : M Trajectory :=
  emit (EvInsert index waypoint) ;;
  ret {| waypoints := firstn index (waypoints traj) ++
                      waypoint :: skipn index (waypoints traj);
         tags := tags traj |}.

(** A Python dict assignment d[k] = v on the tag dictionary. *)
Fixpoint tag_update (k : Tags) (v : bool) (d : list (Tags * bool))
  : list (Tags * bool) :=
  match d with
  | [] => [(k, v)]
  | (k', v') :: d' =>
      if Tags_eqb k k' then (k, v) :: d' else (k', v') :: tag_update k v d'
  end.

Fixpoint tag_lookup (k : Tags) (d : list (Tags * bool)) : option bool :=
  match d with
  | [] => None
  | (k', v) :: d' => if Tags_eqb k k' then Some v else tag_lookup k d'
  end.

Definition GetTrajectoryTags (traj : Trajectory) (k : Tags) : option bool :=
  tag_lookup k (tags traj).

(** Modelled from the spec: prpy.util.SetTrajectoryTags is not among the
    sources.  It tags the trajectory with the given dictionary; with
    append=True the tags already on the trajectory are kept and the new ones
    are written over them. *)
Definition SetTrajectoryTags (traj : Trajectory)
    (newtags : list (Tags * bool)) (append : bool) : M Trajectory :=
  emit EvSetTrajectoryTags ;;
  ret {| waypoints := waypoints traj;
         tags := fold_left (fun d kv => tag_update (fst kv) (snd kv) d)
                           newtags
                           (if append then tags traj else []) |}.

(** Modelled from the spec: prpy.planning.base.ClonedPlanningMethod is not
    among the sources.  Each call operates on a private clone of the robot
    state (snap.py line 189: the planner is using a cloned robot object): the
    body starts in a copy of the caller's world and what it does to the
    robot and to the checker stays in the clone.  The log is ours, not the
    engine's, and keeps what happened in the clone. *)
Definition ClonedPlanningMethod {A} (body : M A) : M A :=
  fun w =>
    match body w with
    | (r, cloned) => (r, {| dof_values := dof_values w;
                            collision_options := collision_options w;
                            log := log cloned |})
    end.

Section Planner.

Variable E : Engine.
Variable self : SnapPlanner.

(** Modelled from the spec: prpy.util.CheckJointLimits is not among the
    sources.  The joint-limit validator, given a configuration, raises on
    violation (snap.py line 142: this can throw a JointLimitError); the
    deterministic keyword is handed on to the error. *)
Definition CheckJointLimits (q : Config) (det : option bool) : M unit :=
  emit (EvCheckJointLimits q) ;;
  if within_joint_limits E q then ret tt
  else raise {| kind := JointLimitError; deterministic := det |}.

(** Modelled from the spec: prpy.util.GetLinearCollisionCheckPts is not
    among the sources.  It yields the configurations to check along the
    trajectory; snap.py lines 164-166: if the trajectory only has one
    waypoint then only the start configuration is collision checked.  For a
    longer trajectory the samples are the engine's. *)
Definition GetLinearCollisionCheckPts (traj : Trajectory)
  : list (Q * Config) :=
  match waypoints traj with
  | [] => []
  | [q] => [(0, q)]
  | _ :: _ :: _ => line_samples E (waypoints traj)
  end.

(** env.CheckCollision(robot, report) and robot.CheckSelfCollision(report),
    asked under the options in force and where the robot stands. *)
Definition env_CheckCollision : M (option CollisionReport) :=
  fun w =>
    bind (emit (EvCheckCollision (collision_options w) (dof_values w)))
         (fun _ => ret (CheckCollision E (collision_options w) (dof_values w)))
         w.

Definition robot_CheckSelfCollision : M (option CollisionReport) :=
  fun w =>
    bind (emit (EvCheckSelfCollision (collision_options w) (dof_values w)))
         (fun _ => ret (CheckSelfCollision E (collision_options w)
                                           (dof_values w)))
         w.

Definition manipulator_FindIKSolution (goal_pose : Pose)
    (filter : IkFilterOptions) : M (option Config) :=
  fun w =>
    bind (emit (EvFindIKSolution filter))
         (fun _ => ret (FindIKSolution E (dof_values w) (collision_options w)
                                       goal_pose filter))
         w.

Definition manipulator_FindIKSolutions (goal_pose : Pose)
    (filter : IkFilterOptions) : M (list Config) :=
  fun w =>
    bind (emit (EvFindIKSolutions filter))
         (fun _ => ret (FindIKSolutions E (dof_values w) (collision_options w)
                                        goal_pose filter))
         w.

(** robot_checker.VerifyCollisionFree(): throws on collision. *)
Definition robot_checker_VerifyCollisionFree
    (robot_checker : RobotCollisionChecker) : M unit :=
  fun w =>
    bind (emit (EvVerifyCollisionFree (collision_options w) (dof_values w)))
         (fun _ =>
            match VerifyCollisionFree robot_checker
                    (collision_options w) (dof_values w) with
            | Some e => raise e
            | None => ret tt
            end)
         w.

(** snap.py lines 187-193: `for t, q in checks`. *)
Fixpoint check_loop (robot_checker : RobotCollisionChecker)
    (checks : list (Q * Config)) : M unit :=
  match checks with
  | [] => ret tt
  | (_, q) :: checks' =>
      SetActiveDOFValues q ;;
      robot_checker_VerifyCollisionFree robot_checker ;;
      check_loop robot_checker checks'
  end.

(** snap.py lines 128-201. *)
Definition _Snap (goal : Config) : M Trajectory :=
  let traj := RaveCreateTrajectory in
  start <- GetActiveDOFValues ;;
  CheckJointLimits start (Some true) ;;
  traj <- Insert 0 start traj ;;
  CheckJointLimits goal (Some true) ;;
  traj <- (if negb (allclose start goal) then Insert 1 goal traj
           else ret traj) ;;
  let checks := GetLinearCollisionCheckPts traj in
  CollisionOptionsStateSaver ActiveDOFs
    (let robot_checker := robot_collision_checker self in
     check_loop robot_checker checks) ;;
  traj <- SetTrajectoryTags traj
            [(SMOOTH, true);
             (DETERMINISTIC_TRAJECTORY, true);
             (DETERMINISTIC_ENDPOINT, true)] true ;;
  ret traj.

(** snap.py lines 63-74. *)
Definition PlanToConfiguration (goal : Config) : M Trajectory :=
  ClonedPlanningMethod (_Snap goal).

(** snap.py lines 115-121: `for q in ik_solutions`. *)
Fixpoint probe_ik_solutions (ik_solutions : list Config) : M unit :=
  match ik_solutions with
  | [] => ret tt
  | q :: rest =>
      SetActiveDOFValues q ;;
      in_env <- env_CheckCollision ;;
      match in_env with
      | Some report =>
          raise (FromReport CollisionPlanningError report (Some true))
      | None =>
          in_self <- robot_CheckSelfCollision ;;
          match in_self with
          | Some report =>
              raise (FromReport SelfCollisionPlanningError report (Some true))
          | None => probe_ik_solutions rest
          end
      end
  end.

Definition no_ik_message : string :=
  "There is no IK solution at the goal pose.".

(** snap.py lines 76-126. *)
Definition PlanToEndEffectorPose (goal_pose : Pose) : M Trajectory :=
  ClonedPlanningMethod
    (ik_solution <- manipulator_FindIKSolution goal_pose CheckEnvCollisions ;;
     match ik_solution with
     | None =>
         ik_solutions <-
           manipulator_FindIKSolutions goal_pose IgnoreSelfCollisions ;;
         probe_ik_solutions ik_solutions ;;
         raise {| kind := PlanningError no_ik_message;
                  deterministic := Some true |}
     | Some q => _Snap q
     end).

End Planner.

(** ** A small engine to run the planner on *)

(** One table in front of the robot: a configuration collides with it when
    some joint is at 2 or beyond, and the arm folds into its own base when
    some joint is at -2 or below.  Joints range over [-3, 3]. *)
Definition table_report : CollisionReport :=
  {| body1 := "arm"; body2 := "table" |}.
Definition base_report : CollisionReport :=
  {| body1 := "arm"; body2 := "base" |}.

Definition hits_table (q : Config) : bool :=
  existsb (fun x => Qle_bool 2 x) q.
Definition hits_base (q : Config) : bool :=
  existsb (fun x => Qle_bool x (-2)) q.

Definition midpoint (a b : Config) : Config :=
  map (fun xy => (fst xy + snd xy) / 2) (combine a b).

(** The toy IK reads the candidate solutions off the rows of the pose. With
    CheckEnvCollisions it answers the first row that is free of the table
    and of the base; with IgnoreSelfCollisions it lists every row. *)
Definition bench : Engine := {|
  FindIKSolution := fun _ _ pose filter =>
    match filter with
    | CheckEnvCollisions =>
        find (fun q => negb (hits_table q) && negb (hits_base q)) pose
    | IgnoreSelfCollisions => hd_error pose
    end;
  FindIKSolutions := fun _ _ pose filter =>
    match filter with
    | CheckEnvCollisions =>
        List.filter (fun q => negb (hits_table q) && negb (hits_base q)) pose
    | IgnoreSelfCollisions => pose
    end;
  CheckCollision := fun _ q =>
    if hits_table q then Some table_report else None;
  CheckSelfCollision := fun _ q =>
    if hits_base q then Some base_report else None;
  within_joint_limits := fun q =>
    forallb (fun x => Qle_bool (-3) x && Qle_bool x 3) q;
  line_samples := fun wps =>
    match wps with
    | a :: b :: _ => [(0, a); (1, b); (1 # 2, midpoint a b)]
    | _ => []
    end
|}.

(** A checker that asks the engine, environment first and then self, and
    raises XPlanningError.FromReport(report, deterministic=det). *)
Definition engine_checker (E : Engine) (det : option bool)
  : RobotCollisionChecker := {|
  VerifyCollisionFree := fun o q =>
    match CheckCollision E o q with
    | Some report => Some (FromReport CollisionPlanningError report det)
    | None =>
        match CheckSelfCollision E o q with
        | Some report =>
            Some (FromReport SelfCollisionPlanningError report det)
        | None => None
        end
    end
|}.

Definition bench_planner (det : option bool) : SnapPlanner :=
  {| robot_collision_checker := engine_checker bench det |}.

(** The same bench with an IK solver whose one-solution query always comes
    back empty-handed, whatever FindIKSolutions would list. *)
Definition bench_stalled : Engine := {|
  FindIKSolution := fun _ _ _ _ => None;
  FindIKSolutions := FindIKSolutions bench;
  CheckCollision := CheckCollision bench;
  CheckSelfCollision := CheckSelfCollision bench;
  within_joint_limits := within_joint_limits bench;
  line_samples := line_samples bench
|}.

(** The robot at rest at the origin of a one-joint arm, default options. *)
Definition at_rest : World :=
  {| dof_values := [0]; collision_options := 0%nat; log := [] |}.

(** ** Reading the log *)

Definition is_collision_check (e : Event) : bool :=
  match e with
  | EvCheckCollision _ _ | EvCheckSelfCollision _ _
  | EvVerifyCollisionFree _ _ => true
  | _ => false
  end.

Definition is_options_event (e : Event) : bool :=
  match e with
  | EvSetCollisionOptions _ => true
  | _ => false
  end.

(** What one turn of the check loop may log under options [o]. *)
Definition is_loop_event (o : CollisionOptions) (e : Event) : bool :=
  match e with
  | EvSetActiveDOFValues _ => true
  | EvVerifyCollisionFree o' _ => Nat.eqb o' o
  | _ => false
  end.

(** An event that belongs neither to the option bracket nor to the loop. *)
Definition outside_loop (e : Event) : Prop :=
  is_options_event e = false /\ is_collision_check e = false /\
  (forall q, e <> EvSetActiveDOFValues q).

(** A solution the probe passes over: neither check answers True. *)
Definition probe_free (E : Engine) (o : CollisionOptions) (q : Config)
  : Prop :=
  CheckCollision E o q = None /\ CheckSelfCollision E o q = None.

(** What the probe logs for a solution it passes over. *)
Definition probe_passed (o : CollisionOptions) (q : Config) : list Event :=
  [EvSetActiveDOFValues q; EvCheckCollision o q; EvCheckSelfCollision o q].

(** What one turn of the check loop logs at sample [q] under options [o]. *)
Definition loop_visit (o : CollisionOptions) (q : Config) : list Event :=
  [EvSetActiveDOFValues q; EvVerifyCollisionFree o q].

(** The calls that only the diagnostic probe of PlanToEndEffectorPose
    makes. *)
Definition is_probe_event (e : Event) : bool :=
  match e with
  | EvFindIKSolutions _ | EvCheckCollision _ _ | EvCheckSelfCollision _ _ =>
      true
  | _ => false
  end.

(** What _Snap logs before it enters the with-block. *)
Definition snap_prelude (start goal : Config) : list Event :=
  [EvCheckJointLimits start; EvInsert 0 start; EvCheckJointLimits goal] ++
  (if allclose start goal then [] else [EvInsert 1 goal]).

(** The samples _Snap hands to its loop. *)
Definition snap_checks (E : Engine) (start goal : Config) : list (Q * Config) :=
  GetLinearCollisionCheckPts E
    {| waypoints := if allclose start goal then [start] else [start; goal];
       tags := [] |}.

(** Two runs get the same answers to what _Snap asks: the joint-limit test
    at the start and at the goal, the samples of the line, and the checker's
    verdict under ActiveDOFs at each sample.  Nothing is said about any
    other configuration, about other options or about the IK solver. *)
Definition same_snap_answers (E1 E2 : Engine) (self1 self2 : SnapPlanner)
    (start goal : Config) : Prop :=
  within_joint_limits E1 start = within_joint_limits E2 start /\
  within_joint_limits E1 goal = within_joint_limits E2 goal /\
  snap_checks E1 start goal = snap_checks E2 start goal /\
  Forall (fun tq =>
            VerifyCollisionFree (robot_collision_checker self1) ActiveDOFs
              (snd tq) =
            VerifyCollisionFree (robot_collision_checker self2) ActiveDOFs
              (snd tq))
         (snap_checks E1 start goal).

(** Two runs get the same answers to what PlanToEndEffectorPose asks: the
    first IK query, and then either what _Snap asks on the way to the
    solution found or, when none was found, the list of solutions under
    IgnoreSelfCollisions and the two collision queries at each of them
    under the options [o] in force. *)
Definition same_pose_answers (E1 E2 : Engine) (self1 self2 : SnapPlanner)
    (start : Config) (o : CollisionOptions) (goal_pose : Pose) : Prop :=
  FindIKSolution E1 start o goal_pose CheckEnvCollisions =
    FindIKSolution E2 start o goal_pose CheckEnvCollisions /\
  match FindIKSolution E1 start o goal_pose CheckEnvCollisions with
  | Some q => same_snap_answers E1 E2 self1 self2 start q
  | None =>
      FindIKSolutions E1 start o goal_pose IgnoreSelfCollisions =
        FindIKSolutions E2 start o goal_pose IgnoreSelfCollisions /\
      Forall (fun q =>
                CheckCollision E1 o q = CheckCollision E2 o q /\
                CheckSelfCollision E1 o q = CheckSelfCollision E2 o q)
             (FindIKSolutions E1 start o goal_pose IgnoreSelfCollisions)
  end.

(** The error both CheckJointLimits calls of _Snap can raise. *)
Definition joint_limit_error : Exn :=
  {| kind := JointLimitError; deterministic := Some true |}.

Definition snap_tags : list (Tags * bool) :=
  [(SMOOTH, true); (DETERMINISTIC_TRAJECTORY, true);
   (DETERMINISTIC_ENDPOINT, true)].

(** The waypoints _Snap puts into the trajectory. *)
Definition snap_waypoints (start goal : Config) : list Config :=
  if allclose start goal then [start] else [start; goal].

(** The same world with an older history in front of its log. *)
Definition prepend (l : list Event) (w : World) : World :=
  {| dof_values := dof_values w;
     collision_options := collision_options w;
     log := l ++ log w |}.

(** A computation is history independent when an older history changes
    neither what it answers nor what it does. *)
Definition history_independent {A} (m : M A) : Prop :=
  forall l w, m (prepend l w) = (fst (m w), prepend l (snd (m w))).

(** ** How the pieces run *)

Section Runs.

Variable E : Engine.
Variable self : SnapPlanner.

Lemma check_loop_cons t q checks w :
  check_loop (robot_collision_checker self) ((t, q) :: checks) w =
  let w1 := {| dof_values := q;
               collision_options := collision_options w;
               log := (log w ++ [EvSetActiveDOFValues q]) ++
                      [EvVerifyCollisionFree (collision_options w) q] |} in
  match VerifyCollisionFree (robot_collision_checker self) (collision_options w) q with
  | Some e => (Raise e, w1)
  | None => check_loop (robot_collision_checker self) checks w1
  end.
Proof.
  cbn [check_loop]. unfold bind, SetActiveDOFValues,
    robot_checker_VerifyCollisionFree, bind, emit, raise, ret. cbn.
  destruct (VerifyCollisionFree (robot_collision_checker self) (collision_options w) q); reflexivity.
Qed.

(** The loop leaves the options alone, logs only its own two kinds of
    events, and raises exactly what the checker raised at one of the
    samples; it returns only when the checker accepted them all. *)
Lemma check_loop_run checks : forall w,
  collision_options (snd (check_loop (robot_collision_checker self) checks w)) = collision_options w /\
  exists tr,
    log (snd (check_loop (robot_collision_checker self) checks w)) = log w ++ tr /\
    Forall (fun e => is_loop_event (collision_options w) e = true) tr /\
    match fst (check_loop (robot_collision_checker self) checks w) with
    | Return _ =>
        Forall (fun tq => VerifyCollisionFree (robot_collision_checker self) (collision_options w)
                            (snd tq) = None) checks
    | Raise e =>
        exists tq, In tq checks /\
          VerifyCollisionFree (robot_collision_checker self) (collision_options w) (snd tq) = Some e
    end.
Proof.
  induction checks as [|[t q] checks IH]; intro w.
  - cbn. split; [reflexivity|]. exists []. rewrite app_nil_r. auto.
  - rewrite check_loop_cons. cbv zeta.
    destruct (VerifyCollisionFree (robot_collision_checker self) (collision_options w) q) as [e|] eqn:Hq.
    + cbn. split; [reflexivity|].
      exists [EvSetActiveDOFValues q;
              EvVerifyCollisionFree (collision_options w) q].
      split; [now rewrite <- app_assoc|]. split.
      * repeat constructor. cbn. apply PeanoNat.Nat.eqb_refl.
      * exists (t, q). split; [now left | exact Hq].
    + match goal with |- context [check_loop (robot_collision_checker self) checks ?w1] =>
        destruct (IH w1) as [Ho [tr [Hlog [Hev Hres]]]] end.
      cbn [collision_options] in *. split; [exact Ho|].
      exists ([EvSetActiveDOFValues q;
               EvVerifyCollisionFree (collision_options w) q] ++ tr).
      split; [rewrite Hlog; cbn; now rewrite <- !app_assoc|]. split.
      * apply Forall_app. split; [|exact Hev].
        repeat constructor. cbn. apply PeanoNat.Nat.eqb_refl.
      * destruct (fst (check_loop (robot_collision_checker self) checks _)).
        -- constructor; [exact Hq | exact Hres].
        -- destruct Hres as [tq [Hin Hv]]. exists tq. split; [now right|exact Hv].
Qed.


(** One run of _Snap, told in full: it stops at the first endpoint outside
    the joint limits, and otherwise brackets the check loop between the two
    option changes. *)
Lemma snap_run goal w :
  let start := dof_values w in
  let old := collision_options w in
  let run := _Snap E self goal w in
  collision_options (snd run) = old /\
  exists tr, log (snd run) = log w ++ tr /\
  ((within_joint_limits E start = false /\
    tr = [EvCheckJointLimits start] /\
    fst run = Raise joint_limit_error) \/
   (within_joint_limits E start = true /\
    within_joint_limits E goal = false /\
    tr = [EvCheckJointLimits start; EvInsert 0 start;
          EvCheckJointLimits goal] /\
    fst run = Raise joint_limit_error) \/
   (within_joint_limits E start = true /\
    within_joint_limits E goal = true /\
    exists body fin,
      tr = [EvCheckJointLimits start; EvInsert 0 start;
            EvCheckJointLimits goal] ++
           (if allclose start goal then [] else [EvInsert 1 goal]) ++
           EvSetCollisionOptions ActiveDOFs :: body ++
           EvSetCollisionOptions old :: fin /\
      Forall (fun e => is_loop_event ActiveDOFs e = true) body /\
      let checks := GetLinearCollisionCheckPts E
                      {| waypoints := snap_waypoints start goal;
                         tags := [] |} in
      match fst run with
      | Return traj =>
          fin = [EvSetTrajectoryTags] /\
          traj = {| waypoints := snap_waypoints start goal;
                    tags := snap_tags |} /\
          Forall (fun tq => VerifyCollisionFree (robot_collision_checker self) ActiveDOFs (snd tq)
                            = None) checks
      | Raise e =>
          fin = [] /\
          exists tq, In tq checks /\
            VerifyCollisionFree (robot_collision_checker self) ActiveDOFs (snd tq) = Some e
      end)).
Proof.
  cbv zeta. unfold _Snap, CheckJointLimits, Insert, SetTrajectoryTags,
    CollisionOptionsStateSaver, SetCollisionOptions, GetActiveDOFValues,
    bind, emit, raise, ret, snap_waypoints.
  destruct (within_joint_limits E (dof_values w)) eqn:Hs; cbn.
  2:{ split; [reflexivity|]. eexists. split; [reflexivity|]. left. auto. }
  destruct (within_joint_limits E goal) eqn:Hg; cbn.
  2:{ split; [reflexivity|]. eexists. split; [now rewrite <- !app_assoc|].
      right; left. auto. }
  destruct (allclose (dof_values w) goal) eqn:Hc;
    cbn -[check_loop GetLinearCollisionCheckPts];
    match goal with |- context [check_loop ?c ?cs ?w1] =>
      pose proof (check_loop_run cs w1) as Hrun;
      destruct (check_loop c cs w1) as [r w2]
    end; cbn -[GetLinearCollisionCheckPts] in Hrun;
    destruct Hrun as [Ho [body [Hlog [Hev Hres]]]]; destruct r as [[]|e];
    cbn -[GetLinearCollisionCheckPts];
    (split; [reflexivity|]);
    rewrite Hlog; repeat rewrite <- app_assoc; cbn;
    (eexists; split; [reflexivity|]); right; right;
    (split; [reflexivity|]); (split; [reflexivity|]);
    exists body; eexists; (split; [reflexivity|]);
    (split; [exact Hev|]); auto.
Qed.


(** *** The wrapper *)

Lemma cloned_fst A (body : M A) w :
  fst (ClonedPlanningMethod body w) = fst (body w).
Proof. unfold ClonedPlanningMethod. now destruct (body w). Qed.

Lemma cloned_log A (body : M A) w :
  log (snd (ClonedPlanningMethod body w)) = log (snd (body w)).
Proof. unfold ClonedPlanningMethod. now destruct (body w). Qed.

Lemma cloned_state A (body : M A) w :
  dof_values (snd (ClonedPlanningMethod body w)) = dof_values w /\
  collision_options (snd (ClonedPlanningMethod body w)) = collision_options w.
Proof. unfold ClonedPlanningMethod. now destruct (body w). Qed.

(** *** The probe over IK solutions *)

Lemma probe_cons q rest w :
  probe_ik_solutions E (q :: rest) w =
  let o := collision_options w in
  let w1 := {| dof_values := q; collision_options := o;
               log := (log w ++ [EvSetActiveDOFValues q]) ++
                      [EvCheckCollision o q] |} in
  match CheckCollision E o q with
  | Some report =>
      (Raise (FromReport CollisionPlanningError report (Some true)), w1)
  | None =>
      let w2 := {| dof_values := q; collision_options := o;
                   log := log w1 ++ [EvCheckSelfCollision o q] |} in
      match CheckSelfCollision E o q with
      | Some report =>
          (Raise (FromReport SelfCollisionPlanningError report (Some true)),
           w2)
      | None => probe_ik_solutions E rest w2
      end
  end.
Proof.
  cbn [probe_ik_solutions].
  unfold bind, SetActiveDOFValues, env_CheckCollision,
    robot_CheckSelfCollision, bind, emit, raise, ret. cbn.
  destruct (CheckCollision E (collision_options w) q); [reflexivity|].
  cbn. destruct (CheckSelfCollision E (collision_options w) q); reflexivity.
Qed.

Lemma last_nonempty (c : Config) l : forall a b,
  last (c :: l) a = last (c :: l) b.
Proof.
  revert c. induction l as [|x l IH]; intros c a b; [reflexivity|].
  cbn [last]. apply (IH x a b).
Qed.

(** Solutions that are free are passed over one by one. *)
Lemma probe_skips_free pre rest : forall w,
  Forall (probe_free E (collision_options w)) pre ->
  probe_ik_solutions E (pre ++ rest) w =
  probe_ik_solutions E rest
    {| dof_values := last pre (dof_values w);
       collision_options := collision_options w;
       log := log w ++ flat_map (probe_passed (collision_options w)) pre |}.
Proof.
  induction pre as [|p pre IH]; intros w Hfree.
  - cbn. rewrite app_nil_r. now destruct w.
  - inversion Hfree as [|? ? [Henv Hself] Hfree']; subst.
    rewrite <- app_comm_cons, probe_cons. cbv zeta. rewrite Henv, Hself.
    rewrite IH by exact Hfree'. cbn [collision_options dof_values log].
    f_equal. f_equal.
    + destruct pre; [reflexivity|]. cbn [last]. apply last_nonempty.
    + cbn. now rewrite <- !app_assoc.
Qed.

(** Whatever the probe raises carries deterministic=True. *)
Lemma probe_raises_deterministic sols : forall w e,
  fst (probe_ik_solutions E sols w) = Raise e -> deterministic e = Some true.
Proof.
  induction sols as [|q sols IH]; intros w e.
  - cbn. discriminate.
  - rewrite probe_cons. cbv zeta.
    destruct (CheckCollision E (collision_options w) q).
    + cbn. intros [= <-]. reflexivity.
    + destruct (CheckSelfCollision E (collision_options w) q).
      * cbn. intros [= <-]. reflexivity.
      * apply IH.
Qed.

(** One run of the body of PlanToEndEffectorPose when the first IK query
    finds nothing. *)
Lemma pose_run_no_solution goal_pose w :
  FindIKSolution E (dof_values w) (collision_options w) goal_pose
    CheckEnvCollisions = None ->
  PlanToEndEffectorPose E self goal_pose w =
  ClonedPlanningMethod
    (probe_ik_solutions E
       (FindIKSolutions E (dof_values w) (collision_options w) goal_pose
          IgnoreSelfCollisions) ;;
     raise {| kind := PlanningError no_ik_message;
              deterministic := Some true |})
    {| dof_values := dof_values w;
       collision_options := collision_options w;
       log := log w ++ [EvFindIKSolution CheckEnvCollisions;
                        EvFindIKSolutions IgnoreSelfCollisions] |}.
Proof.
  intro Hnone.
  unfold PlanToEndEffectorPose, ClonedPlanningMethod,
    manipulator_FindIKSolution, manipulator_FindIKSolutions.
  unfold bind at 1 2. unfold emit, ret. cbn [dof_values collision_options log].
  rewrite Hnone. unfold bind at 1 2 3. cbn [dof_values collision_options log].
  rewrite <- app_assoc. reflexivity.
Qed.

Lemma pose_run_solution goal_pose w q :
  FindIKSolution E (dof_values w) (collision_options w) goal_pose
    CheckEnvCollisions = Some q ->
  PlanToEndEffectorPose E self goal_pose w =
  ClonedPlanningMethod (_Snap E self q)
    {| dof_values := dof_values w;
       collision_options := collision_options w;
       log := log w ++ [EvFindIKSolution CheckEnvCollisions] |}.
Proof.
  intro Hsome.
  unfold PlanToEndEffectorPose, ClonedPlanningMethod,
    manipulator_FindIKSolution.
  unfold bind at 1 2. unfold emit, ret. cbn [dof_values collision_options log].
  rewrite Hsome. reflexivity.
Qed.

End Runs.

(** ** History independence *)

Section History.

Variable E : Engine.
Variable self : SnapPlanner.

Ltac hi_primitive :=
  intros l w; cbv [history_independent prepend ret raise emit bind
                   SetActiveDOFValues SetCollisionOptions GetActiveDOFValues];
  cbn [fst snd dof_values collision_options log];
  rewrite ?app_assoc; reflexivity.

Lemma hi_ret A (a : A) : history_independent (ret a).
Proof. hi_primitive. Qed.

Lemma hi_raise A e : history_independent (@raise A e).
Proof. hi_primitive. Qed.

Lemma hi_emit e : history_independent (emit e).
Proof. hi_primitive. Qed.

Lemma hi_GetActiveDOFValues : history_independent GetActiveDOFValues.
Proof. hi_primitive. Qed.

Lemma hi_SetActiveDOFValues q : history_independent (SetActiveDOFValues q).
Proof. hi_primitive. Qed.

Lemma hi_SetCollisionOptions o : history_independent (SetCollisionOptions o).
Proof. hi_primitive. Qed.

Lemma hi_bind A B (m : M A) (k : A -> M B) :
  history_independent m -> (forall a, history_independent (k a)) ->
  history_independent (bind m k).
Proof.
  intros Hm Hk l w. unfold bind. rewrite Hm.
  destruct (m w) as [[a|e] w']; cbn [fst snd]; [apply Hk | reflexivity].
Qed.

(** A computation that first looks at the robot and the options. *)
Lemma hi_reading A (f : Config -> CollisionOptions -> M A) :
  (forall q o, history_independent (f q o)) ->
  history_independent (fun w => f (dof_values w) (collision_options w) w).
Proof. intros Hf l w. apply (Hf (dof_values w) (collision_options w) l w). Qed.

Lemma prepend_snoc l d o tr e :
  {| dof_values := d; collision_options := o; log := (l ++ tr) ++ [e] |} =
  prepend l {| dof_values := d; collision_options := o; log := tr ++ [e] |}.
Proof. unfold prepend. cbn. now rewrite app_assoc. Qed.

Lemma hi_saver A o (body : M A) :
  history_independent body ->
  history_independent (CollisionOptionsStateSaver o body).
Proof.
  intros Hb l w. unfold CollisionOptionsStateSaver.
  cbv [SetCollisionOptions]. cbn [fst snd dof_values collision_options log].
  unfold prepend at 1 2 3. cbn [dof_values collision_options log].
  rewrite prepend_snoc, Hb.
  destruct (body _) as [r w2]. cbn [fst snd dof_values collision_options log].
  unfold prepend. cbn [fst snd dof_values collision_options log].
  now rewrite app_assoc.
Qed.

Lemma hi_cloned A (body : M A) :
  history_independent body ->
  history_independent (ClonedPlanningMethod body).
Proof.
  intros Hb l w. unfold ClonedPlanningMethod. rewrite Hb.
  destruct (body w) as [r w2]. reflexivity.
Qed.

Lemma hi_CheckJointLimits q det : history_independent (CheckJointLimits E q det).
Proof.
  unfold CheckJointLimits. apply hi_bind; [apply hi_emit|]. intros _.
  destruct (within_joint_limits E q); [apply hi_ret | apply hi_raise].
Qed.

Lemma hi_Insert i q traj : history_independent (Insert i q traj).
Proof. apply hi_bind; [apply hi_emit | intros; apply hi_ret]. Qed.

Lemma hi_SetTrajectoryTags traj d b :
  history_independent (SetTrajectoryTags traj d b).
Proof. apply hi_bind; [apply hi_emit | intros; apply hi_ret]. Qed.

Lemma hi_env_CheckCollision : history_independent (env_CheckCollision E).
Proof.
  apply (hi_reading _ (fun q o =>
    bind (emit (EvCheckCollision o q)) (fun _ => ret (CheckCollision E o q)))).
  intros. apply hi_bind; [apply hi_emit | intros; apply hi_ret].
Qed.

Lemma hi_robot_CheckSelfCollision :
  history_independent (robot_CheckSelfCollision E).
Proof.
  apply (hi_reading _ (fun q o =>
    bind (emit (EvCheckSelfCollision o q))
         (fun _ => ret (CheckSelfCollision E o q)))).
  intros. apply hi_bind; [apply hi_emit | intros; apply hi_ret].
Qed.

Lemma hi_FindIKSolution pose flt :
  history_independent (manipulator_FindIKSolution E pose flt).
Proof.
  apply (hi_reading _ (fun q o =>
    bind (emit (EvFindIKSolution flt))
         (fun _ => ret (FindIKSolution E q o pose flt)))).
  intros. apply hi_bind; [apply hi_emit | intros; apply hi_ret].
Qed.

Lemma hi_FindIKSolutions pose flt :
  history_independent (manipulator_FindIKSolutions E pose flt).
Proof.
  apply (hi_reading _ (fun q o =>
    bind (emit (EvFindIKSolutions flt))
         (fun _ => ret (FindIKSolutions E q o pose flt)))).
  intros. apply hi_bind; [apply hi_emit | intros; apply hi_ret].
Qed.

Lemma hi_VerifyCollisionFree c :
  history_independent (robot_checker_VerifyCollisionFree c).
Proof.
  apply (hi_reading _ (fun q o =>
    bind (emit (EvVerifyCollisionFree o q))
         (fun _ => match VerifyCollisionFree c o q with
                   | Some e => raise e
                   | None => ret tt
                   end))).
  intros. apply hi_bind; [apply hi_emit|]. intros _.
  destruct (VerifyCollisionFree c o q); [apply hi_raise | apply hi_ret].
Qed.

Lemma hi_check_loop c checks : history_independent (check_loop c checks).
Proof.
  induction checks as [|[t q] checks IH]; cbn [check_loop]; [apply hi_ret|].
  apply hi_bind; [apply hi_SetActiveDOFValues|]. intros _.
  apply hi_bind; [apply hi_VerifyCollisionFree|]. intros _. exact IH.
Qed.

Lemma hi_probe sols : history_independent (probe_ik_solutions E sols).
Proof.
  induction sols as [|q sols IH]; cbn [probe_ik_solutions]; [apply hi_ret|].
  apply hi_bind; [apply hi_SetActiveDOFValues|]. intros _.
  apply hi_bind; [apply hi_env_CheckCollision|]. intros [r|];
    [apply hi_raise|].
  apply hi_bind; [apply hi_robot_CheckSelfCollision|]. intros [r|];
    [apply hi_raise | exact IH].
Qed.

Lemma hi_Snap goal : history_independent (_Snap E self goal).
Proof.
  unfold _Snap.
  apply hi_bind; [apply hi_GetActiveDOFValues|]. intros start.
  apply hi_bind; [apply hi_CheckJointLimits|]. intros _.
  apply hi_bind; [apply hi_Insert|]. intros traj.
  apply hi_bind; [apply hi_CheckJointLimits|]. intros _.
  apply hi_bind.
  { destruct (negb (allclose start goal)); [apply hi_Insert | apply hi_ret]. }
  intros traj'.
  apply hi_bind; [apply hi_saver, hi_check_loop|]. intros _.
  apply hi_bind; [apply hi_SetTrajectoryTags|]. intros; apply hi_ret.
Qed.

Lemma hi_PlanToConfiguration goal :
  history_independent (PlanToConfiguration E self goal).
Proof. apply hi_cloned, hi_Snap. Qed.

Lemma hi_PlanToEndEffectorPose pose :
  history_independent (PlanToEndEffectorPose E self pose).
Proof.
  apply hi_cloned.
  apply hi_bind; [apply hi_FindIKSolution|]. intros [q|]; [apply hi_Snap|].
  apply hi_bind; [apply hi_FindIKSolutions|]. intros sols.
  apply hi_bind; [apply hi_probe|]. intros _. apply hi_raise.
Qed.

(** Two worlds that differ in their history only. *)
Lemma same_state_prepend w1 w2 :
  dof_values w1 = dof_values w2 ->
  collision_options w1 = collision_options w2 ->
  exists w0, w1 = prepend (log w1) w0 /\ w2 = prepend (log w2) w0.
Proof.
  intros Hd Ho.
  exists {| dof_values := dof_values w1;
            collision_options := collision_options w1; log := [] |}.
  unfold prepend. cbn. rewrite !app_nil_r. split.
  - now destruct w1.
  - rewrite Hd, Ho. now destruct w2.
Qed.

Lemma hi_same_outcome A (m : M A) w1 w2 :
  history_independent m ->
  dof_values w1 = dof_values w2 ->
  collision_options w1 = collision_options w2 ->
  fst (m w1) = fst (m w2).
Proof.
  intros Hm Hd Ho.
  destruct (same_state_prepend w1 w2 Hd Ho) as [w0 [H1 H2]].
  rewrite H1, H2, !Hm. reflexivity.
Qed.

(** Such worlds also see the same engine calls, in the same order. *)
Lemma hi_same_trace A (m : M A) w1 w2 :
  history_independent m ->
  dof_values w1 = dof_values w2 ->
  collision_options w1 = collision_options w2 ->
  exists tr,
    log (snd (m w1)) = log w1 ++ tr /\ log (snd (m w2)) = log w2 ++ tr.
Proof.
  intros Hm Hd Ho.
  destruct (same_state_prepend w1 w2 Hd Ho) as [w0 [H1 H2]].
  exists (log (snd (m w0))). split.
  - replace (m w1) with (m (prepend (log w1) w0)) by (now rewrite <- H1).
    rewrite Hm. reflexivity.
  - replace (m w2) with (m (prepend (log w2) w0)) by (now rewrite <- H2).
    rewrite Hm. reflexivity.
Qed.

End History.

(** ** The claims *)

Section Claims.

Variable E : Engine.
Variable self : SnapPlanner.

Lemma split_at_head A (before : list A) e after a l :
  before ++ e :: after = a :: l ->
  (before = [] /\ e = a /\ after = l) \/
  (exists b, before = a :: b /\ b ++ e :: after = l).
Proof.
  destruct before as [|x b]; cbn; intros H; injection H as -> <-.
  - left. auto.
  - right. eauto.
Qed.

Lemma in_middle A (before : list A) e after : In e (before ++ e :: after).
Proof. apply in_or_app. right. now left. Qed.

(** C1. A goal outside the joint limits makes _Snap, and so
    PlanToConfiguration, fail with a JointLimitError before any collision
    check and before the goal waypoint is inserted.  In every run, a
    waypoint is inserted only after its configuration passed
    CheckJointLimits, and a collision check happens only after both the
    start and the goal did. *)
Theorem snap_limits_before_collision goal w :
  exists tr,
    log (snd (_Snap E self goal w)) = log w ++ tr /\
    log (snd (PlanToConfiguration E self goal w)) = log w ++ tr /\
    (forall before e after, tr = before ++ e :: after ->
       (forall i q, e = EvInsert i q -> In (EvCheckJointLimits q) before) /\
       (is_collision_check e = true ->
          In (EvCheckJointLimits (dof_values w)) before /\
          In (EvCheckJointLimits goal) before)) /\
    (within_joint_limits E goal = false ->
       fst (_Snap E self goal w) =
         Raise {| kind := JointLimitError; deterministic := Some true |} /\
       fst (PlanToConfiguration E self goal w) =
         Raise {| kind := JointLimitError; deterministic := Some true |} /\
       Forall (fun e => is_collision_check e = false) tr /\
       forall q, ~ In (EvInsert 1 q) tr).
Proof.
  destruct (snap_run E self goal w) as [_ [tr [Hlog Hcases]]].
  exists tr. split; [exact Hlog|].
  split; [unfold PlanToConfiguration; now rewrite cloned_log|].
  unfold PlanToConfiguration. rewrite cloned_fst.
  destruct Hcases as [[Hs [-> Hr]] | [[Hs [Hg [-> Hr]]] | [Hs [Hg Hrun]]]].
  - split.
    + intros before e after Hsplit. symmetry in Hsplit.
      apply split_at_head in Hsplit as [[-> [-> _]] | [b [_ Hb]]];
        [split; [discriminate | discriminate]|].
      now destruct b.
    + intros _. repeat split; try exact Hr.
      * repeat constructor.
      * intros q [H|[]]. discriminate H.
  - split.
    + intros before e after Hsplit. symmetry in Hsplit.
      apply split_at_head in Hsplit as [[-> [-> _]] | [b [-> Hsplit]]];
        [split; discriminate|].
      apply split_at_head in Hsplit as [[-> [-> _]] | [b' [-> Hsplit]]].
      { split; [|discriminate]. intros i q [= _ ->]. now left. }
      apply split_at_head in Hsplit as [[-> [-> _]] | [b [-> Hsplit]]];
        [split; discriminate|].
      now destruct b.
    + intros _. repeat split; try exact Hr.
      * repeat constructor.
      * intros q [H|[H|[H|[]]]]; discriminate H.
  - split; [|intros Hg'; congruence].
    destruct Hrun as [body [fin [-> [Hbody Hres]]]].
    intros before e after Hsplit. symmetry in Hsplit. cbn [app] in Hsplit.
    apply split_at_head in Hsplit as [[-> [-> _]] | [b [-> Hsplit]]];
      [split; discriminate|].
    apply split_at_head in Hsplit as [[-> [-> _]] | [b' [-> Hsplit]]].
    { split; [|discriminate]. intros i q [= _ ->]. now left. }
    apply split_at_head in Hsplit as [[-> [-> _]] | [b [-> Hsplit]]];
      [split; discriminate|].
    split; [|intros _; split; [now left | right; right; now left]].
    intros i q ->.
    assert (Hin : In (EvInsert i q)
                     ((if allclose (dof_values w) goal then []
                       else [EvInsert 1 goal]) ++
                      EvSetCollisionOptions ActiveDOFs
                      :: body ++
                         EvSetCollisionOptions (collision_options w) :: fin))
      by (rewrite <- Hsplit; apply in_middle).
    assert (Hfin : fin = [EvSetTrajectoryTags] \/ fin = []).
    { cbv zeta in Hres. destruct (fst (_Snap E self goal w)).
      - left. apply Hres.
      - right. apply Hres. }
    apply in_app_or in Hin as [Hin | [Hin | Hin]].
    + destruct (allclose (dof_values w) goal); [destruct Hin|].
      destruct Hin as [[= _ <-] | []]. right; right; now left.
    + discriminate Hin.
    + apply in_app_or in Hin as [Hin | [Hin | Hin]].
      * rewrite Forall_forall in Hbody. apply Hbody in Hin. discriminate Hin.
      * discriminate Hin.
      * destruct Hfin as [-> | ->]; [|destruct Hin].
        destruct Hin as [Hin | []]. discriminate Hin.
Qed.


(** C2. A trajectory that _Snap returns has at most two waypoints: the start
    alone when numpy.allclose(start, goal) holds, and the start followed by
    the goal otherwise. *)
Theorem snap_waypoint_count goal w traj :
  fst (_Snap E self goal w) = Return traj ->
  (List.length (waypoints traj) <= 2)%nat /\
  waypoints traj =
    if allclose (dof_values w) goal then [dof_values w]
    else [dof_values w; goal].
Proof.
  intro Hret.
  destruct (snap_run E self goal w) as [_ [tr [_ Hcases]]].
  rewrite Hret in Hcases.
  destruct Hcases as [[_ [_ Hr]] | [[_ [_ [_ Hr]]] | [_ [_ Hrun]]]];
    try discriminate Hr.
  destruct Hrun as [body [fin [_ [_ [_ [-> _]]]]]].
  unfold snap_waypoints. cbn [waypoints].
  destruct (allclose (dof_values w) goal); cbn; split; auto.
Qed.

(** C5. When _Snap succeeds, every sampled configuration was accepted by
    the collision checker and the returned trajectory carries SMOOTH,
    DETERMINISTIC_TRAJECTORY and DETERMINISTIC_ENDPOINT, all true. *)
Theorem snap_success_tags goal w traj :
  fst (_Snap E self goal w) = Return traj ->
  GetTrajectoryTags traj SMOOTH = Some true /\
  GetTrajectoryTags traj DETERMINISTIC_TRAJECTORY = Some true /\
  GetTrajectoryTags traj DETERMINISTIC_ENDPOINT = Some true /\
  Forall (fun tq => VerifyCollisionFree (robot_collision_checker self)
                      ActiveDOFs (snd tq) = None)
         (GetLinearCollisionCheckPts E traj).
Proof.
  intro Hret.
  destruct (snap_run E self goal w) as [_ [tr [_ Hcases]]].
  rewrite Hret in Hcases.
  destruct Hcases as [[_ [_ Hr]] | [[_ [_ [_ Hr]]] | [_ [_ Hrun]]]];
    try discriminate Hr.
  destruct Hrun as [body [fin [_ [_ [_ [-> Hfree]]]]]].
  repeat split; try reflexivity. exact Hfree.
Qed.

(** The other direction: endpoints within the limits and samples that the
    checker accepts give a trajectory. *)
Lemma snap_succeeds goal w :
  within_joint_limits E (dof_values w) = true ->
  within_joint_limits E goal = true ->
  Forall (fun tq => VerifyCollisionFree (robot_collision_checker self)
                      ActiveDOFs (snd tq) = None)
         (GetLinearCollisionCheckPts E
            {| waypoints := snap_waypoints (dof_values w) goal;
               tags := [] |}) ->
  exists traj, fst (_Snap E self goal w) = Return traj.
Proof.
  intros Hs Hg Hfree.
  destruct (snap_run E self goal w) as [_ [tr [_ Hcases]]].
  destruct Hcases as [[Hs' _] | [[_ [Hg' _]] | [_ [_ Hrun]]]];
    try congruence.
  destruct Hrun as [body [fin [_ [_ Hres]]]]. cbv zeta in Hres.
  destruct (fst (_Snap E self goal w)) as [traj|e]; [now exists traj|].
  destruct Hres as [_ [tq [Hin Hraise]]].
  rewrite Forall_forall in Hfree. rewrite (Hfree tq Hin) in Hraise.
  discriminate Hraise.
Qed.

(** What _Snap raises is either flagged deterministic or is what the
    checker raised at a sample. *)
Lemma snap_raises goal w e :
  fst (_Snap E self goal w) = Raise e ->
  deterministic e = Some true \/
  exists q, VerifyCollisionFree (robot_collision_checker self)
              ActiveDOFs q = Some e.
Proof.
  intro Hraise.
  destruct (snap_run E self goal w) as [_ [tr [_ Hcases]]].
  rewrite Hraise in Hcases.
  destruct Hcases as [[_ [_ Hr]] | [[_ [_ [_ Hr]]] | [_ [_ Hrun]]]].
  - injection Hr as ->. now left.
  - injection Hr as ->. now left.
  - destruct Hrun as [body [fin [_ [_ [_ [tq [_ Hq]]]]]]].
    right. now exists (snd tq).
Qed.

(** C6, as amended. A failure of PlanToConfiguration or
    PlanToEndEffectorPose carries deterministic = True unless it is the
    exception that the planner's robot collision checker raised from
    VerifyCollisionFree inside the check loop, which is passed on as it
    is. *)
Theorem failures_deterministic_unless_from_checker goal goal_pose w e :
  fst (PlanToConfiguration E self goal w) = Raise e \/
  fst (PlanToEndEffectorPose E self goal_pose w) = Raise e ->
  deterministic e = Some true \/
  exists q, VerifyCollisionFree (robot_collision_checker self)
              ActiveDOFs q = Some e.
Proof.
  intros [Hconf | Hpose].
  - unfold PlanToConfiguration in Hconf. rewrite cloned_fst in Hconf.
    eapply snap_raises; eassumption.
  - destruct (FindIKSolution E (dof_values w) (collision_options w) goal_pose
                CheckEnvCollisions) as [q|] eqn:Hik.
    + rewrite (pose_run_solution E self _ _ _ Hik), cloned_fst in Hpose.
      eapply snap_raises; eassumption.
    + rewrite (pose_run_no_solution E self _ _ Hik), cloned_fst in Hpose.
      left. unfold bind in Hpose.
      match type of Hpose with context [probe_ik_solutions E ?s ?w1] =>
        pose proof (probe_raises_deterministic E s w1) as Hprobe;
        destruct (probe_ik_solutions E s w1) as [[[]|e'] w2]
      end; cbn in Hpose, Hprobe.
      * injection Hpose as <-. reflexivity.
      * injection Hpose as <-. now apply Hprobe.
Qed.


(** C7. _Snap leaves the collision checker's options as it found them on
    every exit path.  Either the run ended before the with-block and never
    touched them, or its log is bracketed: ActiveDOFs is set, then come the
    loop's events only, each check made under ActiveDOFs, then the old
    options are put back; nothing outside the bracket sets options or checks
    collisions. *)
Theorem snap_restores_collision_options goal w :
  collision_options (snd (_Snap E self goal w)) = collision_options w /\
  exists tr,
    log (snd (_Snap E self goal w)) = log w ++ tr /\
    (Forall outside_loop tr \/
     exists pre body post,
       tr = pre ++ EvSetCollisionOptions ActiveDOFs ::
            body ++ EvSetCollisionOptions (collision_options w) :: post /\
       Forall outside_loop pre /\
       Forall (fun e => is_loop_event ActiveDOFs e = true) body /\
       Forall outside_loop post).
Proof.
  destruct (snap_run E self goal w) as [Ho [tr [Hlog Hcases]]].
  split; [exact Ho|]. exists tr. split; [exact Hlog|].
  assert (Hout : forall e, is_options_event e = false ->
                   is_collision_check e = false ->
                   (forall q, e <> EvSetActiveDOFValues q) -> outside_loop e)
    by (intros e H1 H2 H3; repeat split; assumption).
  destruct Hcases as [[_ [-> _]] | [[_ [_ [-> _]]] | [_ [_ Hrun]]]].
  - left. repeat constructor; discriminate.
  - left. repeat constructor; discriminate.
  - right. destruct Hrun as [body [fin [-> [Hbody Hres]]]].
    exists ([EvCheckJointLimits (dof_values w); EvInsert 0 (dof_values w);
             EvCheckJointLimits goal] ++
            (if allclose (dof_values w) goal then []
             else [EvInsert 1 goal])), body, fin.
    split; [now rewrite <- app_assoc|]. split; [|split; [exact Hbody|]].
    + destruct (allclose (dof_values w) goal);
        repeat constructor; discriminate.
    + cbv zeta in Hres. destruct (fst (_Snap E self goal w)).
      * destruct Hres as [-> _]. repeat constructor; discriminate.
      * destruct Hres as [-> _]. constructor.
Qed.

(** C10. When the goal is numerically the start, the trajectory has one
    waypoint and the start configuration is still handed to the collision
    checker, under ActiveDOFs: if the checker raises there, _Snap fails with
    that exception, and only if it does not is the one-waypoint trajectory
    returned. *)
Theorem snap_checks_start_for_identical_goal goal w :
  within_joint_limits E (dof_values w) = true ->
  within_joint_limits E goal = true ->
  allclose (dof_values w) goal = true ->
  (exists tr,
     log (snd (_Snap E self goal w)) = log w ++ tr /\
     In (EvVerifyCollisionFree ActiveDOFs (dof_values w)) tr) /\
  match VerifyCollisionFree (robot_collision_checker self) ActiveDOFs
          (dof_values w) with
  | Some e => fst (_Snap E self goal w) = Raise e
  | None => exists traj, fst (_Snap E self goal w) = Return traj /\
                         waypoints traj = [dof_values w]
  end.
Proof.
  intros Hs Hg Hc.
  unfold _Snap, CheckJointLimits, Insert, SetTrajectoryTags,
    CollisionOptionsStateSaver, SetCollisionOptions, GetActiveDOFValues,
    GetLinearCollisionCheckPts, bind, emit, raise, ret.
  cbn [fst snd dof_values collision_options log].
  rewrite Hs. cbn [fst snd dof_values collision_options log].
  rewrite Hg. cbn [fst snd dof_values collision_options log].
  rewrite Hc.
  cbn [negb waypoints fst snd dof_values collision_options log
       RaveCreateTrajectory firstn skipn app tags].
  rewrite check_loop_cons. cbv zeta.
  cbn [fst snd dof_values collision_options log].
  destruct (VerifyCollisionFree (robot_collision_checker self) ActiveDOFs
              (dof_values w)) as [e|];
    cbn [check_loop ret fst snd dof_values collision_options log waypoints].
  - split; [|reflexivity]. eexists. split.
    + repeat rewrite <- app_assoc. reflexivity.
    + cbn. auto 10.
  - split; [|eexists; split; reflexivity]. eexists. split.
    + repeat rewrite <- app_assoc. reflexivity.
    + cbn. auto 10.
Qed.

(** C4. No solution under CheckEnvCollisions and an empty set under
    IgnoreSelfCollisions: the call fails with the PlanningError that says
    there is no IK solution at the goal pose, flagged deterministic. *)
Theorem pose_no_ik_solution goal_pose w :
  FindIKSolution E (dof_values w) (collision_options w) goal_pose
    CheckEnvCollisions = None ->
  FindIKSolutions E (dof_values w) (collision_options w) goal_pose
    IgnoreSelfCollisions = [] ->
  fst (PlanToEndEffectorPose E self goal_pose w) =
  Raise {| kind := PlanningError "There is no IK solution at the goal pose.";
           deterministic := Some true |}.
Proof.
  intros Hnone Hempty.
  rewrite (pose_run_no_solution E self _ _ Hnone), cloned_fst, Hempty.
  reflexivity.
Qed.

(** C3. No solution under CheckEnvCollisions, and the solutions found under
    IgnoreSelfCollisions, of which there is at least one, are all in
    self-collision and none in environment collision: the call fails with a
    SelfCollisionPlanningError, built from the report of the first of
    them. *)
Theorem pose_self_collision goal_pose w :
  FindIKSolution E (dof_values w) (collision_options w) goal_pose
    CheckEnvCollisions = None ->
  FindIKSolutions E (dof_values w) (collision_options w) goal_pose
    IgnoreSelfCollisions <> [] ->
  (forall q,
     In q (FindIKSolutions E (dof_values w) (collision_options w) goal_pose
             IgnoreSelfCollisions) ->
     CheckCollision E (collision_options w) q = None /\
     CheckSelfCollision E (collision_options w) q <> None) ->
  exists q rest report,
    FindIKSolutions E (dof_values w) (collision_options w) goal_pose
      IgnoreSelfCollisions = q :: rest /\
    CheckSelfCollision E (collision_options w) q = Some report /\
    fst (PlanToEndEffectorPose E self goal_pose w) =
    Raise {| kind := SelfCollisionPlanningError report;
             deterministic := Some true |}.
Proof.
  intros Hnone Hsome Hall.
  rewrite (pose_run_no_solution E self _ _ Hnone), cloned_fst.
  destruct (FindIKSolutions E (dof_values w) (collision_options w) goal_pose
              IgnoreSelfCollisions) as [|q rest]; [contradiction|].
  destruct (Hall q (or_introl eq_refl)) as [Henv Hself].
  unfold bind. rewrite probe_cons. cbv zeta.
  cbn [fst snd dof_values collision_options log]. rewrite Henv.
  destruct (CheckSelfCollision E (collision_options w) q) as [report|]
    eqn:Hreport; [|contradiction].
  exists q, rest, report.
  split; [reflexivity|]. split; [exact Hreport | reflexivity].
Qed.

(** C9. In the probe the environment check comes first.  Let q be the first
    solution, in the order the solver listed them, that is not free.  If q
    is in environment collision then, whether or not it is also in
    self-collision, the call fails with the CollisionPlanningError of q's
    environment report, and the log shows that the self-collision check was
    never asked at q; only if q is clear of the environment does q's
    self-collision give a SelfCollisionPlanningError. *)
Theorem pose_environment_collision_first goal_pose w pre q post :
  FindIKSolution E (dof_values w) (collision_options w) goal_pose
    CheckEnvCollisions = None ->
  FindIKSolutions E (dof_values w) (collision_options w) goal_pose
    IgnoreSelfCollisions = pre ++ q :: post ->
  (forall p, In p pre ->
     CheckCollision E (collision_options w) p = None /\
     CheckSelfCollision E (collision_options w) p = None) ->
  (forall report,
     CheckCollision E (collision_options w) q = Some report ->
     fst (PlanToEndEffectorPose E self goal_pose w) =
       Raise {| kind := CollisionPlanningError report;
                deterministic := Some true |} /\
     log (snd (PlanToEndEffectorPose E self goal_pose w)) =
       log w ++
       [EvFindIKSolution CheckEnvCollisions;
        EvFindIKSolutions IgnoreSelfCollisions] ++
       flat_map (fun p => [EvSetActiveDOFValues p;
                           EvCheckCollision (collision_options w) p;
                           EvCheckSelfCollision (collision_options w) p])
                pre ++
       [EvSetActiveDOFValues q; EvCheckCollision (collision_options w) q]) /\
  (forall report,
     CheckCollision E (collision_options w) q = None ->
     CheckSelfCollision E (collision_options w) q = Some report ->
     fst (PlanToEndEffectorPose E self goal_pose w) =
       Raise {| kind := SelfCollisionPlanningError report;
                deterministic := Some true |}).
Proof.
  intros Hnone Hsols Hpre.
  rewrite (pose_run_no_solution E self _ _ Hnone), cloned_fst, cloned_log,
    Hsols.
  unfold bind. rewrite probe_skips_free
    by (apply Forall_forall; intros p Hp; apply Hpre, Hp).
  rewrite probe_cons. cbv zeta.
  cbn [fst snd dof_values collision_options log].
  split; intros report Henv.
  - rewrite Henv. cbn [fst snd log]. split; [reflexivity|].
    repeat rewrite <- app_assoc. reflexivity.
  - intros Hself. rewrite Henv, Hself. reflexivity.
Qed.

End Claims.

(** ** The claims on the bench *)

(** C1 at a goal of 4, outside [-3, 3]. *)
Lemma snap_limits_before_collision_witness :
  within_joint_limits bench [4] = false /\
  fst (_Snap bench (bench_planner None) [4] at_rest) =
    Raise {| kind := JointLimitError; deterministic := Some true |} /\
  fst (PlanToConfiguration bench (bench_planner None) [4] at_rest) =
    Raise {| kind := JointLimitError; deterministic := Some true |}.
Proof.
  split; [reflexivity|].
  destruct (snap_limits_before_collision bench (bench_planner None) [4]
              at_rest) as [tr [_ [_ [_ Hfail]]]].
  destruct (Hfail eq_refl) as [Hsnap [Hplan _]]. split; assumption.
Defined.

(** C2 at a goal of 1, one unit from the start. *)
Lemma snap_waypoint_count_witness :
  fst (_Snap bench (bench_planner None) [1] at_rest) =
    Return {| waypoints := [[0]; [1]]; tags := snap_tags |} /\
  (List.length [[0]; [1]] <= 2)%nat /\
  [[0]; [1]] = if allclose [0] [1] then [[0]] else [[0]; [1]].
Proof.
  split; [reflexivity|].
  apply (snap_waypoint_count bench (bench_planner None) [1] at_rest
           {| waypoints := [[0]; [1]]; tags := snap_tags |}).
  reflexivity.
Defined.

(** C3 at a pose whose two solutions both fold the arm into the base. *)
Lemma pose_self_collision_witness :
  exists q rest report,
    FindIKSolutions bench [0] 0%nat [[-2]; [-5 # 2]] IgnoreSelfCollisions =
      q :: rest /\
    CheckSelfCollision bench 0%nat q = Some report /\
    fst (PlanToEndEffectorPose bench (bench_planner None)
           [[-2]; [-5 # 2]] at_rest) =
    Raise {| kind := SelfCollisionPlanningError report;
             deterministic := Some true |}.
Proof.
  apply (pose_self_collision bench (bench_planner None) [[-2]; [-5 # 2]]
           at_rest).
  - reflexivity.
  - discriminate.
  - intros q [<- | [<- | []]]; split; [reflexivity | discriminate
                                       | reflexivity | discriminate].
Defined.

(** C4 at a pose without any solution. *)
Lemma pose_no_ik_solution_witness :
  fst (PlanToEndEffectorPose bench (bench_planner None) [] at_rest) =
  Raise {| kind := PlanningError "There is no IK solution at the goal pose.";
           deterministic := Some true |}.
Proof.
  apply (pose_no_ik_solution bench (bench_planner None) [] at_rest);
    reflexivity.
Defined.

(** C5 at a goal of 1. *)
Lemma snap_success_tags_witness :
  fst (_Snap bench (bench_planner None) [1] at_rest) =
    Return {| waypoints := [[0]; [1]]; tags := snap_tags |} /\
  GetTrajectoryTags {| waypoints := [[0]; [1]]; tags := snap_tags |}
    SMOOTH = Some true /\
  GetTrajectoryTags {| waypoints := [[0]; [1]]; tags := snap_tags |}
    DETERMINISTIC_TRAJECTORY = Some true /\
  GetTrajectoryTags {| waypoints := [[0]; [1]]; tags := snap_tags |}
    DETERMINISTIC_ENDPOINT = Some true.
Proof.
  split; [reflexivity|].
  destruct (snap_success_tags bench (bench_planner None) [1] at_rest
              {| waypoints := [[0]; [1]]; tags := snap_tags |} eq_refl)
    as [H1 [H2 [H3 _]]].
  repeat split; assumption.
Defined.

(** C6: a checker that raises FromReport(report) without the keyword, and a
    goal of 5/2, inside the table.  The CollisionPlanningError that reaches
    the caller carries deterministic = None. *)
Lemma checker_failure_not_flagged :
  exists e,
    fst (PlanToConfiguration bench (bench_planner None) [5 # 2] at_rest) =
      Raise e /\
    kind e = CollisionPlanningError table_report /\
    deterministic e <> Some true.
Proof.
  exists {| kind := CollisionPlanningError table_report;
            deterministic := None |}.
  split; [reflexivity|]. split; [reflexivity | discriminate].
Defined.

(** C6 as amended, at the same run. *)
Lemma failures_deterministic_unless_from_checker_witness :
  fst (PlanToConfiguration bench (bench_planner None) [5 # 2] at_rest) =
    Raise (FromReport CollisionPlanningError table_report None) /\
  (deterministic (FromReport CollisionPlanningError table_report None) =
     Some true \/
   exists q,
     VerifyCollisionFree (robot_collision_checker (bench_planner None))
       ActiveDOFs q =
     Some (FromReport CollisionPlanningError table_report None)).
Proof.
  split; [reflexivity|].
  apply (failures_deterministic_unless_from_checker bench (bench_planner None)
           [5 # 2] [] at_rest).
  left. reflexivity.
Defined.

(** C9 at a pose whose first solution touches the table and the base at
    once. *)
Lemma pose_environment_collision_first_witness :
  CheckCollision bench 0%nat [-2; 2] = Some table_report /\
  CheckSelfCollision bench 0%nat [-2; 2] = Some base_report /\
  fst (PlanToEndEffectorPose bench (bench_planner None)
         [[-2; 2]; [-5 # 2]] at_rest) =
  Raise {| kind := CollisionPlanningError table_report;
           deterministic := Some true |}.
Proof.
  split; [reflexivity|]. split; [reflexivity|].
  destruct (pose_environment_collision_first bench (bench_planner None)
              [[-2; 2]; [-5 # 2]] at_rest [] [-2; 2] [[-5 # 2]]
              eq_refl eq_refl) as [Henv _].
  - intros p [].
  - apply (Henv table_report). reflexivity.
Defined.

(** C10 with the robot standing inside the table and the goal where it
    stands. *)
Lemma snap_checks_start_for_identical_goal_witness :
  allclose [5 # 2] [5 # 2] = true /\
  fst (_Snap bench (bench_planner None) [5 # 2]
         {| dof_values := [5 # 2]; collision_options := 0%nat; log := [] |}) =
  Raise (FromReport CollisionPlanningError table_report None).
Proof.
  split; [reflexivity|].
  destruct (snap_checks_start_for_identical_goal bench (bench_planner None)
              [5 # 2]
              {| dof_values := [5 # 2]; collision_options := 0%nat;
                 log := [] |} eq_refl eq_refl eq_refl) as [_ Hraise].
  exact Hraise.
Defined.

(** ** Beyond the claims: the whole run of _Snap *)

Section SnapRuns.

Variable E : Engine.
Variable self : SnapPlanner.

(** Samples the checker accepts are visited one after the other. *)
Lemma check_loop_accepts c pre rest : forall w,
  Forall (fun tq => VerifyCollisionFree c (collision_options w) (snd tq)
                    = None) pre ->
  check_loop c (pre ++ rest) w =
  check_loop c rest
    {| dof_values := last (map snd pre) (dof_values w);
       collision_options := collision_options w;
       log := log w ++
              flat_map (fun tq => loop_visit (collision_options w) (snd tq))
                       pre |}.
Proof.
  induction pre as [|[t q] pre IH]; intros w Hfree.
  - cbn. rewrite app_nil_r. now destruct w.
  - inversion Hfree as [|? ? Hq Hfree']; subst. cbn [snd] in Hq.
    rewrite <- app_comm_cons.
    unfold check_loop at 1; fold check_loop.
    unfold bind, SetActiveDOFValues, robot_checker_VerifyCollisionFree,
      bind, emit, raise, ret.
    cbn [fst snd dof_values collision_options log]. rewrite Hq.
    rewrite IH by exact Hfree'.
    cbn [fst snd dof_values collision_options log map flat_map loop_visit].
    f_equal. f_equal.
    + destruct pre as [|[t' q'] pre]; [reflexivity|].
      cbn [map snd last]. apply last_nonempty.
    + cbn. now rewrite <- !app_assoc.
Qed.

(** _Snap with both endpoints within the limits, up to the loop. *)
Lemma snap_unfold goal w :
  within_joint_limits E (dof_values w) = true ->
  within_joint_limits E goal = true ->
  _Snap E self goal w =
  match check_loop (robot_collision_checker self)
          (GetLinearCollisionCheckPts E
             {| waypoints := snap_waypoints (dof_values w) goal;
                tags := [] |})
          {| dof_values := dof_values w;
             collision_options := ActiveDOFs;
             log := (log w ++ snap_prelude (dof_values w) goal) ++
                    [EvSetCollisionOptions ActiveDOFs] |} with
  | (Return _, w2) =>
      (Return {| waypoints := snap_waypoints (dof_values w) goal;
                 tags := snap_tags |},
       {| dof_values := dof_values w2;
          collision_options := collision_options w;
          log := (log w2 ++ [EvSetCollisionOptions (collision_options w)]) ++
                 [EvSetTrajectoryTags] |})
  | (Raise e, w2) =>
      (Raise e,
       {| dof_values := dof_values w2;
          collision_options := collision_options w;
          log := log w2 ++ [EvSetCollisionOptions (collision_options w)] |})
  end.
Proof.
  intros Hs Hg.
  unfold _Snap, CheckJointLimits, Insert, SetTrajectoryTags,
    CollisionOptionsStateSaver, SetCollisionOptions, GetActiveDOFValues,
    bind, emit, raise, ret, snap_waypoints, snap_prelude.
  cbn [fst snd dof_values collision_options log]. rewrite Hs.
  cbn [fst snd dof_values collision_options log]. rewrite Hg.
  cbn [fst snd dof_values collision_options log].
  destruct (allclose (dof_values w) goal);
    cbn [negb fst snd dof_values collision_options log waypoints tags
         RaveCreateTrajectory firstn skipn app];
    match goal with |- context [check_loop ?c ?cs ?w1] =>
      match goal with |- _ = match check_loop _ _ ?w1' with _ => _ end =>
        replace w1' with w1
          by (f_equal; cbn; now rewrite <- !app_assoc)
      end;
      destruct (check_loop c cs w1) as [[[]|e] w2]
    end; reflexivity.
Qed.


Lemma loop_event_not_probe o e :
  is_loop_event o e = true -> is_probe_event e = false.
Proof. destruct e; cbn; intros H; try reflexivity; discriminate H. Qed.

(** X1. _Snap returns a trajectory exactly when the robot's configuration
    and the goal are within the joint limits and the robot collision
    checker, asked under ActiveDOFs, accepts every sample of the line. *)
Theorem snap_success_iff goal w :
  (exists traj, fst (_Snap E self goal w) = Return traj) <->
  within_joint_limits E (dof_values w) = true /\
  within_joint_limits E goal = true /\
  Forall (fun tq => VerifyCollisionFree (robot_collision_checker self)
                      ActiveDOFs (snd tq) = None)
         (snap_checks E (dof_values w) goal).
Proof.
  split.
  - intros [traj Hret].
    destruct (snap_run E self goal w) as [_ [tr [_ Hcases]]].
    rewrite Hret in Hcases.
    destruct Hcases as [[_ [_ Hr]] | [[_ [_ [_ Hr]]] | [Hs [Hg Hrun]]]];
      try discriminate Hr.
    destruct Hrun as [body [fin [_ [_ [_ [_ Hfree]]]]]].
    repeat split; assumption.
  - intros [Hs [Hg Hfree]]. now apply snap_succeeds.
Qed.

(** X2. The loop aborts at the first sample the checker rejects: _Snap
    raises that very exception, the robot is left standing at that sample,
    the samples after it are never visited, the options are put back and no
    tag is set. *)
Theorem snap_stops_at_first_rejected_sample goal w pre t q post e :
  within_joint_limits E (dof_values w) = true ->
  within_joint_limits E goal = true ->
  snap_checks E (dof_values w) goal = pre ++ (t, q) :: post ->
  Forall (fun tq => VerifyCollisionFree (robot_collision_checker self)
                      ActiveDOFs (snd tq) = None) pre ->
  VerifyCollisionFree (robot_collision_checker self) ActiveDOFs q = Some e ->
  _Snap E self goal w =
  (Raise e,
   {| dof_values := q;
      collision_options := collision_options w;
      log := log w ++ snap_prelude (dof_values w) goal ++
             EvSetCollisionOptions ActiveDOFs ::
             flat_map (fun tq => loop_visit ActiveDOFs (snd tq)) pre ++
             loop_visit ActiveDOFs q ++
             [EvSetCollisionOptions (collision_options w)] |}).
Proof.
  intros Hs Hg Hchecks Hpre Hq.
  rewrite (snap_unfold goal w Hs Hg).
  unfold snap_checks, snap_waypoints in *. rewrite Hchecks.
  rewrite check_loop_accepts by exact Hpre.
  rewrite check_loop_cons. cbv zeta.
  cbn [fst snd dof_values collision_options log]. rewrite Hq.
  cbn [fst snd dof_values collision_options log].
  f_equal. f_equal. unfold loop_visit.
  repeat rewrite <- app_assoc. cbn [app]. reflexivity.
Qed.

(** X3. The successful run in full: after the two joint-limit checks and
    the inserts, ActiveDOFs is set, every sample is visited once, in the
    order the generator gave them, the old options are put back and the
    tags are set last.  The trajectory carries the three tags and nothing
    else, and the robot is left at the last sample visited, not at the
    start. *)
Theorem snap_success_run goal w :
  within_joint_limits E (dof_values w) = true ->
  within_joint_limits E goal = true ->
  Forall (fun tq => VerifyCollisionFree (robot_collision_checker self)
                      ActiveDOFs (snd tq) = None)
         (snap_checks E (dof_values w) goal) ->
  _Snap E self goal w =
  (Return {| waypoints := if allclose (dof_values w) goal
                          then [dof_values w] else [dof_values w; goal];
             tags := [(SMOOTH, true); (DETERMINISTIC_TRAJECTORY, true);
                      (DETERMINISTIC_ENDPOINT, true)] |},
   {| dof_values := last (map snd (snap_checks E (dof_values w) goal))
                         (dof_values w);
      collision_options := collision_options w;
      log := log w ++ snap_prelude (dof_values w) goal ++
             EvSetCollisionOptions ActiveDOFs ::
             flat_map (fun tq => loop_visit ActiveDOFs (snd tq))
                      (snap_checks E (dof_values w) goal) ++
             [EvSetCollisionOptions (collision_options w);
              EvSetTrajectoryTags] |}).
Proof.
  intros Hs Hg Hfree.
  rewrite (snap_unfold goal w Hs Hg).
  unfold snap_checks, snap_waypoints in *.
  match goal with |- context [check_loop ?c ?cs ?w1] =>
    rewrite <- (app_nil_r cs) at 1
  end.
  rewrite check_loop_accepts by exact Hfree.
  cbn [check_loop ret fst snd dof_values collision_options log].
  f_equal. f_equal.
  repeat rewrite <- app_assoc. cbn [app]. reflexivity.
Qed.

Lemma snap_start_outside_limits_eq goal w :
  within_joint_limits E (dof_values w) = false ->
  fst (_Snap E self goal w) = Raise joint_limit_error.
Proof.
  intro Hs.
  unfold _Snap, CheckJointLimits, GetActiveDOFValues, bind, emit, raise, ret.
  cbn [fst snd dof_values collision_options log]. rewrite Hs. reflexivity.
Qed.

(** X4. A robot that stands outside its joint limits cannot snap anywhere:
    the first CheckJointLimits raises, and nothing else has happened by
    then; the goal was not looked at, nothing was inserted, the checker's
    options were not touched. *)
Theorem snap_start_outside_limits goal w :
  within_joint_limits E (dof_values w) = false ->
  _Snap E self goal w =
  (Raise {| kind := JointLimitError; deterministic := Some true |},
   {| dof_values := dof_values w;
      collision_options := collision_options w;
      log := log w ++ [EvCheckJointLimits (dof_values w)] |}).
Proof.
  intro Hs.
  unfold _Snap, CheckJointLimits, GetActiveDOFValues, bind, emit, raise, ret.
  cbn [fst snd dof_values collision_options log]. rewrite Hs. reflexivity.
Qed.

(** X8. What _Snap and PlanToConfiguration answer does not depend on the
    collision options in force when they are called, nor on the history:
    the loop runs under ActiveDOFs whatever was set before. *)
Theorem snap_outcome_ignores_incoming_options goal w1 w2 :
  dof_values w1 = dof_values w2 ->
  fst (_Snap E self goal w1) = fst (_Snap E self goal w2) /\
  fst (PlanToConfiguration E self goal w1) =
    fst (PlanToConfiguration E self goal w2).
Proof.
  intro Hd.
  assert (Hsnap : fst (_Snap E self goal w1) = fst (_Snap E self goal w2)).
  { destruct (within_joint_limits E (dof_values w1)) eqn:Hs1.
    - assert (Hs2 := Hs1). rewrite Hd in Hs2.
      destruct (within_joint_limits E goal) eqn:Hg.
      + rewrite (snap_unfold goal w1 Hs1 Hg), (snap_unfold goal w2 Hs2 Hg).
        rewrite Hd.
        match goal with
        | |- fst (match check_loop ?c ?cs ?a with _ => _ end) =
             fst (match check_loop _ _ ?b with _ => _ end) =>
            pose proof (hi_same_outcome _ (check_loop c cs) a b
                          (hi_check_loop c cs) eq_refl eq_refl) as Hloop;
            destruct (check_loop c cs a) as [[[]|e1] a'];
            destruct (check_loop c cs b) as [[[]|e2] b']
        end; cbn in Hloop |- *; congruence.
      + destruct (snap_run E self goal w1) as [_ [? [_ H1]]].
        destruct (snap_run E self goal w2) as [_ [? [_ H2]]].
        destruct H1 as [[? _] | [[_ [_ [_ ->]]] | [_ [? _]]]];
          try congruence.
        destruct H2 as [[? _] | [[_ [_ [_ ->]]] | [_ [? _]]]];
          congruence.
    - assert (Hs2 := Hs1). rewrite Hd in Hs2.
      now rewrite (snap_start_outside_limits_eq goal w1 Hs1),
                  (snap_start_outside_limits_eq goal w2 Hs2). }
  split; [exact Hsnap|].
  unfold PlanToConfiguration. now rewrite !cloned_fst.
Qed.


End SnapRuns.

(** ** Beyond the claims: both branches of PlanToEndEffectorPose *)

Section PoseRuns.

Variable E : Engine.
Variable self : SnapPlanner.

(** The probe raises collision errors only, flagged deterministic. *)
Lemma probe_raises_collision sols : forall w e,
  fst (probe_ik_solutions E sols w) = Raise e ->
  deterministic e = Some true /\
  exists report, kind e = CollisionPlanningError report \/
                 kind e = SelfCollisionPlanningError report.
Proof.
  induction sols as [|q sols IH]; intros w e.
  - cbn. discriminate.
  - rewrite probe_cons. cbv zeta.
    destruct (CheckCollision E (collision_options w) q) as [r|].
    + cbn. intros [= <-]. split; [reflexivity|]. exists r. now left.
    + destruct (CheckSelfCollision E (collision_options w) q) as [r|].
      * cbn. intros [= <-]. split; [reflexivity|]. exists r. now right.
      * apply IH.
Qed.

(** The probe runs to its end exactly when every solution is free. *)
Lemma probe_returns_iff sols : forall w,
  fst (probe_ik_solutions E sols w) = Return tt <->
  Forall (probe_free E (collision_options w)) sols.
Proof.
  induction sols as [|q sols IH]; intro w.
  - cbn. split; [constructor | reflexivity].
  - rewrite probe_cons. cbv zeta. split.
    + destruct (CheckCollision E (collision_options w) q) eqn:Henv;
        [cbn; discriminate|].
      destruct (CheckSelfCollision E (collision_options w) q) eqn:Hself;
        [cbn; discriminate|].
      intro Hrest. apply IH in Hrest. constructor; [split; assumption|].
      exact Hrest.
    + intro Hall. inversion Hall as [|? ? [Henv Hself] Hrest]; subst.
      rewrite Henv, Hself. apply IH. exact Hrest.
Qed.

(** X5. When the first IK query finds a solution, PlanToEndEffectorPose is
    PlanToConfiguration to that solution: the same outcome and, after the
    one FindIKSolution call, the same engine calls.  The slower
    FindIKSolutions and the probe's collision queries are never made. *)
Theorem pose_with_solution_snaps_to_it goal_pose w q :
  FindIKSolution E (dof_values w) (collision_options w) goal_pose
    CheckEnvCollisions = Some q ->
  fst (PlanToEndEffectorPose E self goal_pose w) =
    fst (PlanToConfiguration E self q w) /\
  exists tr,
    log (snd (PlanToConfiguration E self q w)) = log w ++ tr /\
    log (snd (PlanToEndEffectorPose E self goal_pose w)) =
      log w ++ EvFindIKSolution CheckEnvCollisions :: tr /\
    Forall (fun e => is_probe_event e = false) tr.
Proof.
  intro Hik. rewrite (pose_run_solution E self _ _ _ Hik).
  fold (PlanToConfiguration E self q).
  set (w' := {| dof_values := dof_values w;
                collision_options := collision_options w;
                log := log w ++ [EvFindIKSolution CheckEnvCollisions] |}).
  split.
  - apply hi_same_outcome; [apply hi_PlanToConfiguration | | ]; reflexivity.
  - destruct (hi_same_trace _ (PlanToConfiguration E self q) w w'
                (hi_PlanToConfiguration E self q) eq_refl eq_refl)
      as [tr [Hw Hw']].
    exists tr. split; [exact Hw|]. split.
    + rewrite Hw'. subst w'. cbn [log]. now rewrite <- app_assoc.
    + unfold PlanToConfiguration in Hw. rewrite cloned_log in Hw.
      destruct (snap_run E self q w) as [_ [tr' [Hlog Hcases]]].
      rewrite Hlog in Hw. apply app_inv_head in Hw. subst tr'.
      destruct Hcases as [[_ [-> _]] | [[_ [_ [-> _]]] | [_ [_ Hrun]]]].
      * repeat constructor.
      * repeat constructor.
      * destruct Hrun as [body [fin [-> [Hbody Hres]]]].
        repeat (apply Forall_app; split).
        -- repeat constructor.
        -- destruct (allclose (dof_values w) q); repeat constructor.
        -- constructor; [reflexivity|]. apply Forall_app. split.
           ++ eapply Forall_impl; [|exact Hbody].
              intros e. apply loop_event_not_probe.
           ++ constructor; [reflexivity|]. cbv zeta in Hres.
              destruct (fst (_Snap E self q w)).
              ** destruct Hres as [-> _]. repeat constructor.
              ** destruct Hres as [-> _]. constructor.
Qed.

(** X6. When the first IK query finds nothing, PlanToEndEffectorPose never
    returns a trajectory: it raises an exception flagged deterministic that
    is the no-IK-solution PlanningError, a CollisionPlanningError or a
    SelfCollisionPlanningError. *)
Theorem pose_without_solution_always_fails goal_pose w :
  FindIKSolution E (dof_values w) (collision_options w) goal_pose
    CheckEnvCollisions = None ->
  exists e,
    fst (PlanToEndEffectorPose E self goal_pose w) = Raise e /\
    deterministic e = Some true /\
    (kind e = PlanningError "There is no IK solution at the goal pose." \/
     exists report, kind e = CollisionPlanningError report \/
                    kind e = SelfCollisionPlanningError report).
Proof.
  intro Hnone.
  rewrite (pose_run_no_solution E self _ _ Hnone), cloned_fst.
  unfold bind.
  match goal with |- context [probe_ik_solutions E ?s ?w1] =>
    pose proof (probe_raises_collision s w1) as Hprobe;
    destruct (probe_ik_solutions E s w1) as [[[]|e'] w2]
  end; cbn [fst] in Hprobe |- *.
  - eexists. split; [reflexivity|]. split; [reflexivity|]. now left.
  - destruct (Hprobe e' eq_refl) as [Hdet Hkind].
    exists e'. split; [reflexivity|]. split; [exact Hdet|]. now right.
Qed.

(** X7. In that branch the robot collision checker the planner was built
    with is never consulted: the probe asks the environment and the robot
    directly, so two planners with different checkers do exactly the
    same. *)
Theorem pose_without_solution_ignores_checker goal_pose w other :
  FindIKSolution E (dof_values w) (collision_options w) goal_pose
    CheckEnvCollisions = None ->
  PlanToEndEffectorPose E self goal_pose w =
  PlanToEndEffectorPose E other goal_pose w.
Proof.
  intro Hnone.
  now rewrite (pose_run_no_solution E self _ _ Hnone),
              (pose_run_no_solution E other _ _ Hnone).
Qed.

(** X9. When the first IK query finds nothing, the error says that there is
    no IK solution exactly when none of the solutions found under
    IgnoreSelfCollisions collides with the environment or with the robot
    itself; in particular it says so also when such solutions exist. *)
Theorem pose_no_ik_error_iff_all_free goal_pose w :
  FindIKSolution E (dof_values w) (collision_options w) goal_pose
    CheckEnvCollisions = None ->
  (fst (PlanToEndEffectorPose E self goal_pose w) =
     Raise {| kind := PlanningError
                        "There is no IK solution at the goal pose.";
              deterministic := Some true |} <->
   Forall (fun q => CheckCollision E (collision_options w) q = None /\
                    CheckSelfCollision E (collision_options w) q = None)
          (FindIKSolutions E (dof_values w) (collision_options w) goal_pose
             IgnoreSelfCollisions)).
Proof.
  intro Hnone.
  rewrite (pose_run_no_solution E self _ _ Hnone), cloned_fst.
  unfold bind.
  match goal with |- context [probe_ik_solutions E ?s ?w1] =>
    pose proof (probe_returns_iff s w1) as Hret;
    pose proof (probe_raises_collision s w1) as Hraise;
    destruct (probe_ik_solutions E s w1) as [[[]|e'] w2]
  end; cbn [fst collision_options] in Hret, Hraise |- *.
  - split; [intros _; now apply Hret | reflexivity].
  - split.
    + intros [= ->].
      destruct (Hraise _ eq_refl) as [_ [r [Hk | Hk]]]; discriminate Hk.
    + intro Hall. apply Hret in Hall. discriminate Hall.
Qed.

End PoseRuns.

(** ** The further properties on the bench *)

(** X2 with the goal inside the table: the start passes, the goal is
    rejected, the midpoint is never visited. *)
Lemma snap_stops_at_first_rejected_sample_witness :
  snap_checks bench [0] [5 # 2] =
    [(0, [0])] ++ (1, [5 # 2]) :: [(1 # 2, midpoint [0] [5 # 2])] /\
  _Snap bench (bench_planner None) [5 # 2] at_rest =
  (Raise (FromReport CollisionPlanningError table_report None),
   {| dof_values := [5 # 2];
      collision_options := 0%nat;
      log := [EvCheckJointLimits [0]; EvInsert 0 [0];
              EvCheckJointLimits [5 # 2]; EvInsert 1 [5 # 2];
              EvSetCollisionOptions ActiveDOFs;
              EvSetActiveDOFValues [0];
              EvVerifyCollisionFree ActiveDOFs [0];
              EvSetActiveDOFValues [5 # 2];
              EvVerifyCollisionFree ActiveDOFs [5 # 2];
              EvSetCollisionOptions 0%nat] |}).
Proof.
  split; [reflexivity|].
  apply (snap_stops_at_first_rejected_sample bench (bench_planner None)
           [5 # 2] at_rest [(0, [0])] 1 [5 # 2]
           [(1 # 2, midpoint [0] [5 # 2])]
           (FromReport CollisionPlanningError table_report None)).
  - reflexivity.
  - reflexivity.
  - reflexivity.
  - repeat constructor.
  - reflexivity.
Defined.

(** X3 with a goal of 1: the robot is left at the midpoint, the last sample
    of the bench's generator. *)
Lemma snap_success_run_witness :
  dof_values (snd (_Snap bench (bench_planner None) [1] at_rest)) =
    midpoint [0] [1] /\
  fst (_Snap bench (bench_planner None) [1] at_rest) =
    Return {| waypoints := [[0]; [1]];
              tags := [(SMOOTH, true); (DETERMINISTIC_TRAJECTORY, true);
                       (DETERMINISTIC_ENDPOINT, true)] |}.
Proof.
  rewrite (snap_success_run bench (bench_planner None) [1] at_rest
             eq_refl eq_refl).
  - split; reflexivity.
  - repeat constructor.
Defined.

(** X4 with the robot at 4, outside [-3, 3]. *)
Lemma snap_start_outside_limits_witness :
  within_joint_limits bench [4] = false /\
  fst (_Snap bench (bench_planner None) [0]
         {| dof_values := [4]; collision_options := 0%nat; log := [] |}) =
  Raise {| kind := JointLimitError; deterministic := Some true |}.
Proof.
  split; [reflexivity|].
  now rewrite (snap_start_outside_limits bench (bench_planner None) [0]
                 {| dof_values := [4]; collision_options := 0%nat;
                    log := [] |} eq_refl).
Defined.

(** X5 at a pose with the one free solution 1. *)
Lemma pose_with_solution_snaps_to_it_witness :
  FindIKSolution bench [0] 0%nat [[1]] CheckEnvCollisions = Some [1] /\
  fst (PlanToEndEffectorPose bench (bench_planner None) [[1]] at_rest) =
  fst (PlanToConfiguration bench (bench_planner None) [1] at_rest).
Proof.
  split; [reflexivity|].
  apply (pose_with_solution_snaps_to_it bench (bench_planner None) [[1]]
           at_rest [1] eq_refl).
Defined.

(** X6 at a pose whose one solution folds the arm into the base. *)
Lemma pose_without_solution_always_fails_witness :
  FindIKSolution bench [0] 0%nat [[-2]] CheckEnvCollisions = None /\
  exists e,
    fst (PlanToEndEffectorPose bench (bench_planner None) [[-2]] at_rest) =
      Raise e /\
    deterministic e = Some true /\
    (kind e = PlanningError "There is no IK solution at the goal pose." \/
     exists report, kind e = CollisionPlanningError report \/
                    kind e = SelfCollisionPlanningError report).
Proof.
  split; [reflexivity|].
  apply (pose_without_solution_always_fails bench (bench_planner None)
           [[-2]] at_rest eq_refl).
Defined.

(** X7 at the same pose, with a checker that flags and one that does not. *)
Lemma pose_without_solution_ignores_checker_witness :
  PlanToEndEffectorPose bench (bench_planner None) [[-2]] at_rest =
  PlanToEndEffectorPose bench (bench_planner (Some true)) [[-2]] at_rest.
Proof.
  apply (pose_without_solution_ignores_checker bench (bench_planner None)
           [[-2]] at_rest (bench_planner (Some true)) eq_refl).
Defined.

(** X8 from the world at rest and from one with other options and a
    history. *)
Lemma snap_outcome_ignores_incoming_options_witness :
  fst (_Snap bench (bench_planner None) [5 # 2] at_rest) =
  fst (_Snap bench (bench_planner None) [5 # 2]
         {| dof_values := [0]; collision_options := 3%nat;
            log := [EvSetCollisionOptions 3%nat] |}).
Proof.
  apply (snap_outcome_ignores_incoming_options bench (bench_planner None)
           [5 # 2] at_rest
           {| dof_values := [0]; collision_options := 3%nat;
              log := [EvSetCollisionOptions 3%nat] |} eq_refl).
Defined.

(** X9 at a pose with one solution, free of the table and of the base, that
    the one-solution query did not find. *)
Lemma pose_no_ik_error_iff_all_free_witness :
  FindIKSolution bench_stalled [0] 0%nat [[1]] CheckEnvCollisions = None /\
  FindIKSolutions bench_stalled [0] 0%nat [[1]] IgnoreSelfCollisions =
    [[1]] /\
  fst (PlanToEndEffectorPose bench_stalled (bench_planner None) [[1]]
         at_rest) =
    Raise {| kind := PlanningError
                       "There is no IK solution at the goal pose.";
             deterministic := Some true |}.
Proof.
  split; [reflexivity|]. split; [reflexivity|].
  apply (proj2 (pose_no_ik_error_iff_all_free bench_stalled
                  (bench_planner None) [[1]] at_rest eq_refl)).
  repeat constructor.
Defined.


(** ** Two runs *)

Section TwoRuns.

Variable E1 E2 : Engine.
Variable self1 self2 : SnapPlanner.

Lemma check_loop_same_answers checks : forall w1 w2,
  collision_options w1 = collision_options w2 ->
  Forall (fun tq =>
            VerifyCollisionFree (robot_collision_checker self1)
              (collision_options w1) (snd tq) =
            VerifyCollisionFree (robot_collision_checker self2)
              (collision_options w1) (snd tq)) checks ->
  fst (check_loop (robot_collision_checker self1) checks w1) =
  fst (check_loop (robot_collision_checker self2) checks w2).
Proof.
  induction checks as [|[t q] checks IH]; intros w1 w2 Ho Hsame;
    [reflexivity|].
  inversion Hsame as [|? ? Hq Hrest]; subst. cbn [snd] in Hq.
  rewrite !check_loop_cons. cbv zeta. rewrite <- Ho, <- Hq.
  destruct (VerifyCollisionFree (robot_collision_checker self1)
              (collision_options w1) q); [reflexivity|].
  apply IH; [reflexivity | exact Hrest].
Qed.

Lemma probe_same_answers sols : forall w1 w2,
  collision_options w1 = collision_options w2 ->
  Forall (fun q =>
            CheckCollision E1 (collision_options w1) q =
              CheckCollision E2 (collision_options w1) q /\
            CheckSelfCollision E1 (collision_options w1) q =
              CheckSelfCollision E2 (collision_options w1) q) sols ->
  fst (probe_ik_solutions E1 sols w1) = fst (probe_ik_solutions E2 sols w2).
Proof.
  induction sols as [|q sols IH]; intros w1 w2 Ho Hsame; [reflexivity|].
  inversion Hsame as [|? ? [Henv Hself] Hrest]; subst.
  rewrite !probe_cons. cbv zeta. rewrite <- Ho, <- Henv, <- Hself.
  destruct (CheckCollision E1 (collision_options w1) q); [reflexivity|].
  destruct (CheckSelfCollision E1 (collision_options w1) q); [reflexivity|].
  apply IH; [reflexivity | exact Hrest].
Qed.

Lemma snap_goal_outside_limits_eq (E : Engine) (self : SnapPlanner) goal w :
  within_joint_limits E (dof_values w) = true ->
  within_joint_limits E goal = false ->
  fst (_Snap E self goal w) = Raise joint_limit_error.
Proof.
  intros Hs Hg.
  destruct (snap_run E self goal w) as [_ [tr [_ Hcases]]].
  destruct Hcases as [[Hs' _] | [[_ [_ [_ Hr]]] | [_ [Hg' _]]]];
    [congruence | exact Hr | congruence].
Qed.

Lemma snap_same_answers goal w1 w2 :
  dof_values w1 = dof_values w2 ->
  same_snap_answers E1 E2 self1 self2 (dof_values w1) goal ->
  fst (_Snap E1 self1 goal w1) = fst (_Snap E2 self2 goal w2).
Proof.
  intros Hd [Hs [Hg [Hchecks Hverdicts]]].
  destruct (within_joint_limits E1 (dof_values w1)) eqn:Hs1.
  - assert (Hs2 : within_joint_limits E2 (dof_values w2) = true)
      by (now rewrite <- Hd, <- Hs).
    destruct (within_joint_limits E1 goal) eqn:Hg1.
    + assert (Hg2 : within_joint_limits E2 goal = true) by (now rewrite <- Hg).
      rewrite (snap_unfold E1 self1 goal w1 Hs1 Hg1),
              (snap_unfold E2 self2 goal w2 Hs2 Hg2).
      rewrite <- Hd.
      change (GetLinearCollisionCheckPts E1
                {| waypoints := snap_waypoints (dof_values w1) goal;
                   tags := [] |})
        with (snap_checks E1 (dof_values w1) goal).
      change (GetLinearCollisionCheckPts E2
                {| waypoints := snap_waypoints (dof_values w1) goal;
                   tags := [] |})
        with (snap_checks E2 (dof_values w1) goal).
      rewrite <- Hchecks.
      match goal with
      | |- fst (match check_loop _ ?cs ?a with _ => _ end) =
           fst (match check_loop _ _ ?b with _ => _ end) =>
          pose proof (check_loop_same_answers cs a b eq_refl Hverdicts)
            as Hloop;
          destruct (check_loop (robot_collision_checker self1) cs a)
            as [[[]|e1] a'];
          destruct (check_loop (robot_collision_checker self2) cs b)
            as [[[]|e2] b']
      end; cbn [fst] in Hloop |- *; congruence.
    + assert (Hg2 : within_joint_limits E2 goal = false)
        by (now rewrite <- Hg).
      now rewrite (snap_goal_outside_limits_eq E1 self1 goal w1 Hs1 Hg1),
                  (snap_goal_outside_limits_eq E2 self2 goal w2 Hs2 Hg2).
  - assert (Hs2 : within_joint_limits E2 (dof_values w2) = false)
      by (now rewrite <- Hd, <- Hs).
    now rewrite (snap_start_outside_limits_eq E1 self1 goal w1 Hs1),
                (snap_start_outside_limits_eq E2 self2 goal w2 Hs2).
Qed.

(** C8. PlanToConfiguration and PlanToEndEffectorPose are deterministic:
    take two invocations, each with its own engine state, its own checker
    object and its own past, in which the robot stands at the same
    configuration, the goal is the same and the environment answers alike
    to the queries the planner makes.  Then both end alike, with the same
    trajectory or the same exception.  For PlanToConfiguration the queries
    are the joint-limit tests of start and goal, the samples of the line
    and the checker's verdicts under ActiveDOFs; neither the options in
    force at the call nor any other answer of the engine can change the
    outcome.  For PlanToEndEffectorPose they are, under the options in
    force, the IK queries and the probe's collision queries, and what
    _Snap asks when a solution was found. *)
Theorem planning_is_deterministic goal goal_pose w1 w2 :
  dof_values w1 = dof_values w2 ->
  (same_snap_answers E1 E2 self1 self2 (dof_values w1) goal ->
   fst (PlanToConfiguration E1 self1 goal w1) =
   fst (PlanToConfiguration E2 self2 goal w2)) /\
  (collision_options w1 = collision_options w2 ->
   same_pose_answers E1 E2 self1 self2 (dof_values w1)
     (collision_options w1) goal_pose ->
   fst (PlanToEndEffectorPose E1 self1 goal_pose w1) =
   fst (PlanToEndEffectorPose E2 self2 goal_pose w2)).
Proof.
  intro Hd. split.
  - intro Hsame. unfold PlanToConfiguration. rewrite !cloned_fst.
    now apply snap_same_answers.
  - intros Ho [Hik Hrest].
    destruct (FindIKSolution E1 (dof_values w1) (collision_options w1)
                goal_pose CheckEnvCollisions) as [q|] eqn:H1.
    + assert (H2 : FindIKSolution E2 (dof_values w2) (collision_options w2)
                     goal_pose CheckEnvCollisions = Some q)
        by (now rewrite <- Hd, <- Ho, <- Hik).
      rewrite (pose_run_solution E1 self1 _ _ _ H1),
              (pose_run_solution E2 self2 _ _ _ H2), !cloned_fst.
      apply snap_same_answers; [exact Hd | exact Hrest].
    + assert (H2 : FindIKSolution E2 (dof_values w2) (collision_options w2)
                     goal_pose CheckEnvCollisions = None)
        by (now rewrite <- Hd, <- Ho, <- Hik).
      destruct Hrest as [Hsols Hanswers].
      rewrite (pose_run_no_solution E1 self1 _ _ H1),
              (pose_run_no_solution E2 self2 _ _ H2), !cloned_fst.
      rewrite <- Hd, <- Ho, <- Hsols. unfold bind.
      match goal with
      | |- fst (match probe_ik_solutions E1 ?s ?a with _ => _ end) =
           fst (match probe_ik_solutions E2 _ ?b with _ => _ end) =>
          pose proof (probe_same_answers s a b eq_refl Hanswers) as Hprobe;
          destruct (probe_ik_solutions E1 s a) as [[[]|e1] a'];
          destruct (probe_ik_solutions E2 s b) as [[[]|e2] b']
      end; unfold raise; cbn [fst] in Hprobe |- *; congruence.
Qed.

End TwoRuns.

(** C8 on the bench.  The first run is from rest; the second has another
    engine (its IK solver finds nothing), a checker that flags its errors,
    other options in force and a past.  To a goal of 1 both return the same
    trajectory; to a pose whose one solution folds the arm into the base,
    under the same options, both fail with the same error. *)
Lemma planning_is_deterministic_witness :
  same_snap_answers bench bench_stalled (bench_planner None)
    (bench_planner (Some true)) [0] [1] /\
  fst (PlanToConfiguration bench (bench_planner None) [1] at_rest) =
  fst (PlanToConfiguration bench_stalled (bench_planner (Some true)) [1]
         {| dof_values := [0]; collision_options := 3%nat;
            log := [EvSetCollisionOptions 3%nat] |}) /\
  same_pose_answers bench bench_stalled (bench_planner None)
    (bench_planner (Some true)) [0] 0%nat [[-2]] /\
  fst (PlanToEndEffectorPose bench (bench_planner None) [[-2]] at_rest) =
  fst (PlanToEndEffectorPose bench_stalled (bench_planner (Some true))
         [[-2]]
         {| dof_values := [0]; collision_options := 0%nat;
            log := [EvSetTrajectoryTags] |}).
Proof.
  assert (Hsnap : same_snap_answers bench bench_stalled (bench_planner None)
                    (bench_planner (Some true)) [0] [1])
    by (repeat split; repeat constructor).
  assert (Hpose : same_pose_answers bench bench_stalled (bench_planner None)
                    (bench_planner (Some true)) [0] 0%nat [[-2]])
    by (repeat split; repeat constructor).
  split; [exact Hsnap|]. split.
  - apply (proj1 (planning_is_deterministic bench bench_stalled
                    (bench_planner None) (bench_planner (Some true))
                    [1] [[-2]] at_rest
                    {| dof_values := [0]; collision_options := 3%nat;
                       log := [EvSetCollisionOptions 3%nat] |} eq_refl)).
    exact Hsnap.
  - split; [exact Hpose|].
    apply (proj2 (planning_is_deterministic bench bench_stalled
                    (bench_planner None) (bench_planner (Some true))
                    [1] [[-2]] at_rest
                    {| dof_values := [0]; collision_options := 0%nat;
                       log := [EvSetTrajectoryTags] |} eq_refl));
      [reflexivity | exact Hpose].
Defined.
